(** * LLM summarizer processor: a shallow embedding of [main.go]

    The processor lists the [*.json] files of an input directory, validates
    each one, sends it to the LLM governor, and renders the returned summary
    to [{base}-summary.pdf] in the output directory.  It runs either as an
    ECS task (configuration from the environment) or as a Lambda handler
    (configuration from the event payload).

    The Go program is embedded as a state-and-exit monad over an explicit
    [World] (environment variables, file store, clock, directory listing
    service, governor, and the trace of effects performed so far). *)

From Stdlib Require Import Ascii String Qcanon.
From stdpp Require Import base gmap strings list pretty.

Local Open Scope string_scope.

(** ** Strings: the pieces of [strings] and [path/filepath] the program uses *)

Module GoStrings.

(** [strings.TrimSuffix]: [s] without the trailing [suffix], or [s] itself
    when it does not end with [suffix]. *)
Fixpoint strip_suffix (suffix s : string) : option string :=
  if String.eqb s suffix then Some ""
  else match s with
       | EmptyString => None
       | String c s' => String c <$> strip_suffix suffix s'
       end.

Definition TrimSuffix (s suffix : string) : string :=
  default s (strip_suffix suffix s).

(** [strings.Join(elems, sep)]. *)
Fixpoint Join (elems : list string) (sep : string) : string :=
  match elems with
  | [] => ""
  | [e] => e
  | e :: es => e +:+ sep +:+ Join es sep
  end.

End GoStrings.

Module filepath.

Definition Separator : ascii := "/"%char.

Definition IsPathSeparator (c : ascii) : bool := Ascii.eqb c Separator.

(** The path elements of [path]: the maximal runs between separators
    (empty runs included, so the result is never empty). *)
Fixpoint elements (path : string) : list string :=
  match path with
  | EmptyString => [""]
  | String c rest =>
      if IsPathSeparator c then "" :: elements rest
      else match elements rest with
           | [] => [String c ""]
           | e :: es => String c e :: es
           end
  end.

Definition rooted (path : string) : bool :=
  match path with
  | String c _ => IsPathSeparator c
  | EmptyString => false
  end.

(** One element of [Clean]'s scan.  [out] is the output written so far, as
    a stack of elements (last element first).  Empty and [.] elements are
    skipped; [..] removes the last real element, is dropped at the root, and
    is kept when the path is relative and nothing is left to remove. *)
Definition clean_step (is_rooted : bool) (out : list string) (e : string)
  : list string :=
  if String.eqb e "" || String.eqb e "." then out
  else if String.eqb e ".." then
    match out with
    | top :: below => if String.eqb top ".." then e :: out else below
    | [] => if is_rooted then [] else [e]
    end
  else e :: out.

Definition clean_elements (path : string) : list string :=
  rev (fold_left (clean_step (rooted path)) (elements path) []).

(** [filepath.Clean] on a Unix path (no volume names). *)
Definition Clean (path : string) : string :=
  if String.eqb path "" then "."
  else
    let body := GoStrings.Join (clean_elements path) "/" in
    if rooted path then "/" +:+ body
    else if String.eqb body "" then "." else body.

(** [filepath.Join]: the elements from the first non-empty one on, joined
    by the separator and cleaned; the empty string when all are empty. *)
Fixpoint Join (elem : list string) : string :=
  match elem with
  | [] => ""
  | e :: es =>
      if String.eqb e "" then Join es
      else Clean (GoStrings.Join elem "/")
  end.

Fixpoint last_nonempty (es : list string) : option string :=
  match es with
  | [] => None
  | e :: es' =>
      match last_nonempty es' with
      | Some x => Some x
      | None => if String.eqb e "" then None else Some e
      end
  end.

(** [filepath.Base]: the last element of the path once trailing separators
    are removed; ["."] for the empty path, ["/"] for a path of separators
    only. *)
Definition Base (path : string) : string :=
  if String.eqb path "" then "."
  else default "/" (last_nonempty (elements path)).

(** The suffix of one path element starting at its last dot. *)
Fixpoint ext_of (e : string) : string :=
  match e with
  | EmptyString => ""
  | String c e' =>
      let r := ext_of e' in
      if String.eqb r "" then (if Ascii.eqb c "."%char then e else "") else r
  end.

(** [filepath.Ext]: the suffix beginning at the final dot in the final
    element of the path; empty if there is no dot. *)
Definition Ext (path : string) : string :=
  ext_of (default "" (last (elements path))).

End filepath.

(** ** [encoding/base64]: the standard encoding with padding *)

Module base64.

Definition encodeStd : string :=
  "ABCDEFGHIJKLMNOPQRSTUVWXYZabcdefghijklmnopqrstuvwxyz0123456789+/".

Definition digit (n : N) : ascii :=
  default "="%char (String.get (N.to_nat n) encodeStd).

Fixpoint EncodeToString (src : string) : string :=
  match src with
  | EmptyString => ""
  | String a EmptyString =>
      let v := N.shiftl (N_of_ascii a) 16 in
      String (digit (N.land (N.shiftr v 18) 63))
        (String (digit (N.land (N.shiftr v 12) 63)) "==")
  | String a (String b EmptyString) =>
      let v := N.lor (N.shiftl (N_of_ascii a) 16) (N.shiftl (N_of_ascii b) 8) in
      String (digit (N.land (N.shiftr v 18) 63))
        (String (digit (N.land (N.shiftr v 12) 63))
           (String (digit (N.land (N.shiftr v 6) 63)) "="))
  | String a (String b (String c rest)) =>
      let v := N.lor (N.lor (N.shiftl (N_of_ascii a) 16)
                            (N.shiftl (N_of_ascii b) 8)) (N_of_ascii c) in
      String (digit (N.land (N.shiftr v 18) 63))
        (String (digit (N.land (N.shiftr v 12) 63))
           (String (digit (N.land (N.shiftr v 6) 63))
              (String (digit (N.land v 63)) (EncodeToString rest))))
  end.

End base64.

(** ** The data of the collaborating libraries *)

Module llm.

Record GovernorError := {
  Code : string;
  Msg : string;
  AllowedModels : list string
}.

Inductive ContentBlock :=
| TextBlock (text : string)
| DocumentBlock (name format data : string).

Record Message := {
  Role : string;
  Content : list ContentBlock
}.

Definition UserMessage (blocks : list ContentBlock) : Message :=
  {| Role := "user"; Content := blocks |}.

Record InvokeRequest := {
  Model : string;
  System : string;
  MaxTokens : Z;
  Messages : list Message
}.

Record Usage := { EstimatedCostUsd : Qc }.

Record InvokeResponse := {
  Text : string;
  usage : Usage
}.

(** Modelled from the spec: the client made by [NewGovernor] of the governor
    library.  It holds the gateway function reference and the run identifier
    the calls are accounted to, both read from the environment
    ([LLM_GOVERNOR_FUNCTION], [EXECUTION_RUN_ID]). *)
Record Governor := {
  functionName : string;
  executionRunID : string
}.

(** Modelled from the spec: [Available] holds when the gateway function
    reference is set; the program reports its failure as
    [LLM_GOVERNOR_FUNCTION is not set]. *)
Definition Available (gov : Governor) : bool :=
  negb (String.eqb (functionName gov) "").

End llm.

(** Go's [error] values: a governor error, or any other error. *)
Inductive error :=
| GovernorErr (ge : llm.GovernorError)
| errorString (msg : string).

Inductive result (A : Type) :=
| ok (a : A)
| err (e : error).
Arguments ok {A} a.
Arguments err {A} e.

(** [llm.IsGovernorError]. *)
Definition IsGovernorError (e : error) : option llm.GovernorError :=
  match e with
  | GovernorErr ge => Some ge
  | errorString _ => None
  end.

(** ** [fpdf]: a document is the sequence of drawing operations issued on it *)

Module fpdf.

(** The ordinate returned by [GetY]: the cursor position reached after the
    first [n] operations of the document. *)
Inductive Ordinate := CursorAfter (n : nat).

Inductive Op :=
| OpSetAutoPageBreak (auto : bool) (margin : Z)
| OpAddPage
| OpSetFont (familyStr styleStr : string) (size : Z)
| OpCellFormat (w h : Z) (txtStr borderStr : string) (ln : Z)
               (alignStr : string) (fill : bool) (link : Z) (linkStr : string)
| OpLn (h : Z)
| OpSetTextColor (r g b : Z)
| OpSetDrawColor (r g b : Z)
| OpLine (x1 : Z) (y1 : Ordinate) (x2 : Z) (y2 : Ordinate)
| OpMultiCell (w h : Z) (txtStr borderStr alignStr : string) (fill : bool).

Record Fpdf := {
  orientationStr : string;
  unitStr : string;
  sizeStr : string;
  fontDirStr : string;
  ops : list Op
}.

Definition New (orientation unit size fontDir : string) : Fpdf :=
  {| orientationStr := orientation; unitStr := unit; sizeStr := size;
     fontDirStr := fontDir; ops := [] |}.

Definition issue (op : Op) (pdf : Fpdf) : Fpdf :=
  {| orientationStr := orientationStr pdf; unitStr := unitStr pdf;
     sizeStr := sizeStr pdf; fontDirStr := fontDirStr pdf;
     ops := ops pdf ++ [op] |}.

Definition SetAutoPageBreak auto margin := issue (OpSetAutoPageBreak auto margin).
Definition AddPage := issue OpAddPage.
Definition SetFont family style size := issue (OpSetFont family style size).
Definition CellFormat w h txt border ln align fill link linkStr :=
  issue (OpCellFormat w h txt border ln align fill link linkStr).
Definition Ln h := issue (OpLn h).
Definition SetTextColor r g b := issue (OpSetTextColor r g b).
Definition SetDrawColor r g b := issue (OpSetDrawColor r g b).
Definition Line x1 y1 x2 y2 := issue (OpLine x1 y1 x2 y2).
Definition MultiCell w h txt border align fill :=
  issue (OpMultiCell w h txt border align fill).
Definition GetY (pdf : Fpdf) : Ordinate := CursorAfter (length (ops pdf)).

(** The string a text-drawing operation is given, when it is not empty: a
    cell or a multi-cell with such a string draws text, every other
    operation draws none. *)
Definition shown_text (op : Op) : option string :=
  match op with
  | OpCellFormat _ _ txt _ _ _ _ _ _
  | OpMultiCell _ _ txt _ _ _ => if String.eqb txt "" then None else Some txt
  | _ => None
  end.

(** How a multi-cell breaks its string into lines: at the line feeds, and
    where a line would pass the width of the cell in the font selected by
    the operations issued before.  This is the library's doing, and its
    metrics are not part of the program. *)
Class LineBreaking := break_lines : list Op → Z → string → list string.

(** The text elements an operation draws on the page, after the operations
    [past]: a cell draws its string as one element, a multi-cell draws one
    element per line of its string that is not empty. *)
Definition shown_elements `{LineBreaking} (past : list Op) (op : Op) : list string :=
  match op with
  | OpCellFormat _ _ txt _ _ _ _ _ _ =>
      if String.eqb txt "" then [] else [txt]
  | OpMultiCell w _ txt _ _ _ =>
      if String.eqb txt "" then []
      else List.filter (λ line, negb (String.eqb line "")) (break_lines past w txt)
  | _ => []
  end.

Fixpoint elements_from `{LineBreaking} (past todo : list Op) : list string :=
  match todo with
  | [] => []
  | op :: todo' => shown_elements past op ++ elements_from (past ++ [op]) todo'
  end.

(** The visible text elements of the document, in drawing order. *)
Definition visible_text `{LineBreaking} (pdf : Fpdf) : list string :=
  elements_from [] (ops pdf).

End fpdf.

(** ** [time]: a broken-down UTC instant and the layout the report uses *)

Module time.

Record Time := {
  year : nat; month : nat; day : nat; hour : nat; minute : nat;
  second : nat; nanosecond : nat
}.

Fixpoint zeros (n : nat) : string :=
  match n with
  | O => ""
  | S n' => String "0" (zeros n')
  end.

Definition zero_pad (width : nat) (n : nat) : string :=
  let s := pretty n in zeros (width - String.length s) +:+ s.

(** [t.UTC().Format("2006-01-02 15:04 UTC")]: the instant to the minute. *)
Definition Format_minute_UTC (t : Time) : string :=
  zero_pad 4 (year t) +:+ "-" +:+ zero_pad 2 (month t) +:+ "-" +:+
  zero_pad 2 (day t) +:+ " " +:+ zero_pad 2 (hour t) +:+ ":" +:+
  zero_pad 2 (minute t) +:+ " UTC".

End time.

(** ** The world the process runs in *)

(** The payload sent by the Step Functions orchestrator when the processor
    runs as a Lambda function. *)
Record LambdaEvent := {
  InputDir : string;
  OutputDir : string;
  ExecutionRunID : string;
  ComputeNodeID : string;
  SessionToken : string;
  RefreshToken : string
}.

(** The effects a run performs on its surroundings, in program order. *)
Inductive Event :=
| EvGlob (pattern : string)
| EvReadFile (name : string)
| EvInvoke (gov : llm.Governor) (req : llm.InvokeRequest)
| EvCreate (name : string).

(** One constructor per [log] call site of the program. *)
Inductive LogMsg :=
| LogRunningLambda
| LogRunningECS
| LogStarting
| LogInputDir (dir : string)
| LogOutputDir (dir : string)
| LogFound (n : nat)
| LogProcessing (base : string)
| LogSending
| LogReceived (chars : nat) (cost : Qc)
| LogWritten (pdfPath : string)
| LogComplete.

(** One constructor per [log.Fatal] call site: the message the process dies
    with (exit status 1). *)
Inductive Fatal :=
| FatalDirsRequired
| FatalGovernorNotAvailable
| FatalListJSON (e : error)
| FatalNoJSONFiles
| FatalReadFile (jsonFile : string) (e : error)
| FatalInvalidJSON (jsonFile : string) (e : error)
| FatalFormatJSON (e : error)
| FatalBudgetExceeded (msg : string)
| FatalModelNotAllowed (allowed : list string)
| FatalGovernorError (code msg : string)
| FatalInvokeLLM (e : error)
| FatalGeneratePDF (e : error).

Record World := {
  (** the process environment *)
  env : gmap string string;
  (** the regular files within the reach of the process (those it may read
      and write), by name, with their contents *)
  files : gmap string string;
  (** the names at which the process can make a new file (the parent
      directory exists and is writable, the name is not a directory) *)
  can_create : string → bool;
  (** what [filepath.Glob] answers for a pattern *)
  listing : string → result (list string);
  (** the governor's answer to a request, given what happened before it *)
  governor : list Event → llm.Governor → llm.InvokeRequest
             → result llm.InvokeResponse;
  (** the wall clock, given what happened so far *)
  clock : list Event → time.Time;
  (** the invocations the Lambda runtime will deliver *)
  invocations : list LambdaEvent;
  (** the effects performed so far, oldest first *)
  trace : list Event;
  (** the lines logged so far, oldest first *)
  logged : list (LogMsg + Fatal)
}.

Definition with_env (e : gmap string string) (w : World) : World :=
  {| env := e; files := files w; can_create := can_create w;
     listing := listing w; governor := governor w; clock := clock w;
     invocations := invocations w; trace := trace w; logged := logged w |}.

Definition with_files (f : gmap string string) (w : World) : World :=
  {| env := env w; files := f; can_create := can_create w;
     listing := listing w; governor := governor w; clock := clock w;
     invocations := invocations w; trace := trace w; logged := logged w |}.

Definition with_invocations (evs : list LambdaEvent) (w : World) : World :=
  {| env := env w; files := files w; can_create := can_create w;
     listing := listing w; governor := governor w; clock := clock w;
     invocations := evs; trace := trace w; logged := logged w |}.

Definition record (ev : Event) (w : World) : World :=
  {| env := env w; files := files w; can_create := can_create w;
     listing := listing w; governor := governor w; clock := clock w;
     invocations := invocations w; trace := trace w ++ [ev];
     logged := logged w |}.

Definition log_line (l : LogMsg + Fatal) (w : World) : World :=
  {| env := env w; files := files w; can_create := can_create w;
     listing := listing w; governor := governor w; clock := clock w;
     invocations := invocations w; trace := trace w;
     logged := logged w ++ [l] |}.

(** Whether [os.Create] succeeds at [name]: a file of the store is opened
    and truncated, whatever it holds; where there is none, a new file is
    made if the directory allows it. *)
Definition creatable (w : World) (name : string) : bool :=
  match files w !! name with
  | Some _ => true
  | None => can_create w name
  end.

(** ** The monad of the embedding: state passing, with process exit *)

Inductive Outcome (A : Type) :=
| Returned (a : A)
| Exited (m : Fatal).
Arguments Returned {A} a.
Arguments Exited {A} m.

Definition M (A : Type) : Type := World → Outcome A * World.

Global Instance M_ret : MRet M := λ A a w, (Returned a, w).

Global Instance M_bind : MBind M := λ A B k c w,
  match c w with
  | (Returned a, w') => k a w'
  | (Exited m, w') => (Exited m, w')
  end.

(** [if cond { body }] for a body that returns nothing. *)
Definition when (cond : bool) (body : M unit) : M unit :=
  if cond then body else mret tt.

(** [for _, x := range xs { body }]. *)
Fixpoint for_range {A : Type} (xs : list A) (body : A → M unit) : M unit :=
  match xs with
  | [] => mret tt
  | x :: xs' => body x;; for_range xs' body
  end.

(** *** Primitive effects *)

Definition log_Println (l : LogMsg) : M unit :=
  λ w, (Returned tt, log_line (inl l) w).

Definition log_Printf : LogMsg → M unit := log_Println.

(** [log.Fatal]: log the message, then [os.Exit(1)]. *)
Definition log_Fatal {A : Type} (m : Fatal) : M A :=
  λ w, (Exited m, log_line (inr m) w).

Definition log_Fatalf {A : Type} : Fatal → M A := log_Fatal.

Definition os_Getenv (key : string) : M string :=
  λ w, (Returned (default "" (env w !! key)), w).

Definition zero_byte : ascii := Ascii.ascii_of_nat 0.

Fixpoint has_byte (c : ascii) (s : string) : bool :=
  match s with
  | EmptyString => false
  | String c' s' => Ascii.eqb c c' || has_byte c s'
  end.

(** [os.Setenv]: refused (and the environment left as it is) for an empty
    key, a key holding [=] or a NUL byte, and a value holding a NUL byte. *)
Definition os_Setenv (key value : string) : M (option error) :=
  λ w,
    if String.eqb key "" || has_byte "="%char key || has_byte zero_byte key
       || has_byte zero_byte value
    then (Returned (Some (errorString "setenv: invalid argument")), w)
    else (Returned None, with_env (<[key := value]> (env w)) w).

Definition filepath_Glob (pattern : string) : M (result (list string)) :=
  λ w, (Returned (listing w pattern), record (EvGlob pattern) w).

Definition os_ReadFile (name : string) : M (result string) :=
  λ w,
    (Returned match files w !! name with
              | Some data => ok data
              | None => err (errorString ("open " +:+ name))
              end,
     record (EvReadFile name) w).

Definition time_Now : M time.Time :=
  λ w, (Returned (clock w (trace w)), w).

(** Modelled from the spec: [llm.NewGovernor] reads the client's
    configuration from the environment. *)
Definition llm_NewGovernor : M llm.Governor :=
  fn ← os_Getenv "LLM_GOVERNOR_FUNCTION";
  id ← os_Getenv "EXECUTION_RUN_ID";
  mret {| llm.functionName := fn; llm.executionRunID := id |}.

Definition gov_Invoke (gov : llm.Governor) (req : llm.InvokeRequest)
  : M (result llm.InvokeResponse) :=
  λ w, (Returned (governor w (trace w) gov req), record (EvInvoke gov req) w).

(** ** What the program takes from libraries whose code is not part of it *)

Class External := {
  (** [llm.ModelHaiku45], the model identifier *)
  ModelHaiku45 : string;
  (** [GovernorError.IsBudgetExceeded] and [GovernorError.IsModelNotAllowed] *)
  IsBudgetExceeded : llm.GovernorError → bool;
  IsModelNotAllowed : llm.GovernorError → bool;
  (** [encoding/json]: the values [json.Unmarshal] parses into, the parser,
      and [json.MarshalIndent value prefix indent] *)
  JsonValue : Type;
  json_Unmarshal : string → result JsonValue;
  json_MarshalIndent : JsonValue → string → string → result string;
  (** [fpdf]: how a multi-cell breaks its string into lines, and the bytes
      the library writes for a document at a given instant (the file
      carries the date of its creation, to the second) *)
  fpdf_breaking :: fpdf.LineBreaking;
  fpdf_Output : fpdf.Fpdf → time.Time → string
}.

(** [pdf.OutputFileAndClose]: create (or truncate) the file with [os.Create],
    then write the document to it, as serialized at that moment; the error
    of [os.Create] otherwise. *)
Definition fpdf_OutputFileAndClose `{External} (pdf : fpdf.Fpdf) (fileStr : string)
  : M (option error) :=
  λ w,
    let w' := record (EvCreate fileStr) w in
    if creatable w fileStr
    then (Returned None,
          with_files (<[fileStr := fpdf_Output pdf (clock w' (trace w'))]> (files w')) w')
    else (Returned (Some (errorString ("open " +:+ fileStr))), w').

(** [lambda.Start]: deliver the invocations to the handler one after the
    other.  It returns only in the model, once none is left. *)
Definition next_invocation : M unit :=
  λ w, (Returned tt, with_invocations (tail (invocations w)) w).

Definition lambda_Start (handler : LambdaEvent → M (option error)) : M unit :=
  λ w, for_range (invocations w)
         (λ event, next_invocation;; _ ← handler event; mret tt) w.

(** ** The program: [main.go] *)

Section Processor.

Context `{External}.

Definition system_instruction : string :=
  "You are a data analyst. Summarize datasets clearly and concisely. Use plain text paragraphs, not markdown.".

Definition document_prompt : string :=
"The attached JSON document represents a dataset. Please provide a comprehensive summary that includes:

1. Overview: What this dataset contains and its purpose
2. Structure: The key fields and their types
3. Content Summary: A description of the data values and any patterns
4. Potential Uses: What this dataset could be used for".

(** The document built by [generatePDF] before it is written, for the
    instant [now]. *)
Definition report (title body : string) (now : time.Time) : fpdf.Fpdf :=
  let pdf := fpdf.New "P" "mm" "A4" "" in
  let pdf := fpdf.SetAutoPageBreak true 20 pdf in
  let pdf := fpdf.AddPage pdf in
  (* Title *)
  let pdf := fpdf.SetFont "Helvetica" "B" 18 pdf in
  let pdf := fpdf.CellFormat 0 12 ("Dataset Summary: " +:+ title) "" 1 "L" false 0 "" pdf in
  let pdf := fpdf.Ln 4 pdf in
  (* Metadata line *)
  let pdf := fpdf.SetFont "Helvetica" "" 9 pdf in
  let pdf := fpdf.SetTextColor 128 128 128 pdf in
  let pdf := fpdf.CellFormat 0 5
               ("Generated " +:+ time.Format_minute_UTC now +:+ " by Pennsieve LLM Summarizer")
               "" 1 "L" false 0 "" pdf in
  let pdf := fpdf.Ln 6 pdf in
  (* Separator line *)
  let pdf := fpdf.SetDrawColor 200 200 200 pdf in
  let pdf := fpdf.Line 10 (fpdf.GetY pdf) 200 (fpdf.GetY pdf) pdf in
  let pdf := fpdf.Ln 6 pdf in
  (* Body text *)
  let pdf := fpdf.SetFont "Helvetica" "" 11 pdf in
  let pdf := fpdf.SetTextColor 0 0 0 pdf in
  let pdf := fpdf.MultiCell 0 6 body "" "L" false pdf in
  pdf.

Definition generatePDF (path title body : string) : M (option error) :=
  now ← time_Now;
  fpdf_OutputFileAndClose (report title body now) path.

(** The request [runProcessor] sends for a file named [docName] holding
    [data]. *)
Definition summarize_request (docName data : string) : llm.InvokeRequest :=
  let docB64 := base64.EncodeToString data in
  {| llm.Model := ModelHaiku45;
     llm.System := system_instruction;
     llm.MaxTokens := 2048;
     llm.Messages :=
       [ llm.UserMessage
           [ llm.DocumentBlock docName "txt" docB64;
             llm.TextBlock document_prompt ] ] |}.

(** The handling of a failed governor call, shared by both revisions. *)
Definition fatal_invoke_error (e : error) : M unit :=
  match IsGovernorError e with
  | Some ge =>
      if IsBudgetExceeded ge then log_Fatalf (FatalBudgetExceeded (llm.Msg ge))
      else if IsModelNotAllowed ge
           then log_Fatalf (FatalModelNotAllowed (llm.AllowedModels ge))
           else log_Fatalf (FatalGovernorError (llm.Code ge) (llm.Msg ge))
  | None => mret tt
  end;;
  log_Fatalf (FatalInvokeLLM e).

(** The name of the report written for [jsonFile]. *)
Definition baseName_of (jsonFile : string) : string :=
  GoStrings.TrimSuffix (filepath.Base jsonFile) (filepath.Ext jsonFile).

Definition pdfPath_of (outputDir jsonFile : string) : string :=
  filepath.Join [outputDir; baseName_of jsonFile +:+ "-summary.pdf"].

(** The body of the loop over [jsonFiles] in [runProcessor]. *)
Definition process_file (gov : llm.Governor) (outputDir jsonFile : string)
  : M unit :=
  log_Printf (LogProcessing (filepath.Base jsonFile));;
  (* Read the JSON file *)
  r ← os_ReadFile jsonFile;
  match r with
  | err e => log_Fatalf (FatalReadFile jsonFile e)
  | ok data =>
      (* Validate JSON *)
      match json_Unmarshal data with
      | err e => log_Fatalf (FatalInvalidJSON jsonFile e)
      | ok parsed =>
          (* Send JSON as a document block to Bedrock via the governor *)
          log_Println LogSending;;
          let docName := GoStrings.TrimSuffix (filepath.Base jsonFile)
                                              (filepath.Ext jsonFile) in
          r ← gov_Invoke gov (summarize_request docName data);
          match r with
          | err e => fatal_invoke_error e
          | ok resp =>
              let summary := llm.Text resp in
              log_Printf (LogReceived (String.length summary)
                            (llm.EstimatedCostUsd (llm.usage resp)));;
              (* Generate PDF *)
              let baseName := GoStrings.TrimSuffix (filepath.Base jsonFile)
                                                   (filepath.Ext jsonFile) in
              let pdfPath := filepath.Join [outputDir; baseName +:+ "-summary.pdf"] in
              e ← generatePDF pdfPath baseName summary;
              match e with
              | Some e => log_Fatalf (FatalGeneratePDF e)
              | None => log_Printf (LogWritten pdfPath)
              end
          end
      end
  end.

Definition runProcessor (inputDir outputDir executionRunID : string) : M unit :=
  log_Println LogStarting;;
  when (String.eqb inputDir "" || String.eqb outputDir "")
       (log_Fatal FatalDirsRequired);;
  log_Printf (LogInputDir inputDir);;
  log_Printf (LogOutputDir outputDir);;
  (* Initialize the LLM governor client *)
  gov ← llm_NewGovernor;
  when (negb (llm.Available gov)) (log_Fatal FatalGovernorNotAvailable);;
  (* Find JSON files in the input directory *)
  r ← filepath_Glob (filepath.Join [inputDir; "*.json"]);
  match r with
  | err e => log_Fatalf (FatalListJSON e)
  | ok jsonFiles =>
      when (Nat.eqb (length jsonFiles) 0) (log_Fatal FatalNoJSONFiles);;
      log_Printf (LogFound (length jsonFiles));;
      for_range jsonFiles (process_file gov outputDir);;
      log_Println LogComplete
  end.

Definition handleLambda (event : LambdaEvent) : M (option error) :=
  (* Set EXECUTION_RUN_ID for the LLM SDK (it reads from env) *)
  _ ← os_Setenv "EXECUTION_RUN_ID" (ExecutionRunID event);
  runProcessor (InputDir event) (OutputDir event) (ExecutionRunID event);;
  mret None.

Definition main : M unit :=
  (* Detect Lambda runtime *)
  marker ← os_Getenv "AWS_LAMBDA_RUNTIME_API";
  if negb (String.eqb marker "") then
    log_Println LogRunningLambda;;
    lambda_Start handleLambda
  else
    log_Println LogRunningECS;;
    inputDir ← os_Getenv "INPUT_DIR";
    outputDir ← os_Getenv "OUTPUT_DIR";
    executionRunID ← os_Getenv "EXECUTION_RUN_ID";
    runProcessor inputDir outputDir executionRunID.

End Processor.

(** ** The earlier revision of the program: the JSON embedded in the prompt *)

Module TextPrompt.

Section Processor.

Context `{External}.

Definition inline_prompt (prettyJSON : string) : string :=
"The following JSON represents a dataset. Please provide a comprehensive summary that includes:

1. **Overview**: What this dataset contains and its purpose
2. **Structure**: The key fields and their types
3. **Content Summary**: A description of the data values and any patterns
4. **Potential Uses**: What this dataset could be used for

JSON content:
" +:+ prettyJSON.

Definition generatePDF (path title body : string) : M (option error) :=
  now ← time_Now;
  fpdf_OutputFileAndClose (report title body now) path.

(** The request [main] sends for a document pretty-printed as [prettyJSON]. *)
Definition summarize_request (prettyJSON : string) : llm.InvokeRequest :=
  {| llm.Model := ModelHaiku45;
     llm.System := system_instruction;
     llm.MaxTokens := 2048;
     llm.Messages :=
       [ llm.UserMessage [ llm.TextBlock (inline_prompt prettyJSON) ] ] |}.

(** The body of the loop over [jsonFiles] in [main]. *)
Definition process_file (gov : llm.Governor) (outputDir jsonFile : string)
  : M unit :=
  log_Printf (LogProcessing (filepath.Base jsonFile));;
  (* Read the JSON file *)
  r ← os_ReadFile jsonFile;
  match r with
  | err e => log_Fatalf (FatalReadFile jsonFile e)
  | ok data =>
      (* Parse JSON to verify it's valid and pretty-print for the prompt *)
      match json_Unmarshal data with
      | err e => log_Fatalf (FatalInvalidJSON jsonFile e)
      | ok parsed =>
          match json_MarshalIndent parsed "" "  " with
          | err e => log_Fatalf (FatalFormatJSON e)
          | ok prettyJSON =>
              (* Send to Bedrock via the governor *)
              log_Println LogSending;;
              r ← gov_Invoke gov (summarize_request prettyJSON);
              match r with
              | err e => fatal_invoke_error e
              | ok resp =>
                  let summary := llm.Text resp in
                  log_Printf (LogReceived (String.length summary)
                                (llm.EstimatedCostUsd (llm.usage resp)));;
                  (* Generate PDF *)
                  let baseName := GoStrings.TrimSuffix (filepath.Base jsonFile)
                                                       (filepath.Ext jsonFile) in
                  let pdfPath := filepath.Join [outputDir; baseName +:+ "-summary.pdf"] in
                  e ← generatePDF pdfPath baseName summary;
                  match e with
                  | Some e => log_Fatalf (FatalGeneratePDF e)
                  | None => log_Printf (LogWritten pdfPath)
                  end
              end
          end
      end
  end.

Definition main : M unit :=
  log_Println LogStarting;;
  inputDir ← os_Getenv "INPUT_DIR";
  outputDir ← os_Getenv "OUTPUT_DIR";
  when (String.eqb inputDir "" || String.eqb outputDir "")
       (log_Fatal FatalDirsRequired);;
  log_Printf (LogInputDir inputDir);;
  log_Printf (LogOutputDir outputDir);;
  (* Initialize the LLM governor client *)
  gov ← llm_NewGovernor;
  when (negb (llm.Available gov)) (log_Fatal FatalGovernorNotAvailable);;
  (* Find JSON files in the input directory *)
  r ← filepath_Glob (filepath.Join [inputDir; "*.json"]);
  match r with
  | err e => log_Fatalf (FatalListJSON e)
  | ok jsonFiles =>
      when (Nat.eqb (length jsonFiles) 0) (log_Fatal FatalNoJSONFiles);;
      log_Printf (LogFound (length jsonFiles));;
      for_range jsonFiles (process_file gov outputDir);;
      log_Println LogComplete
  end.

End Processor.

End TextPrompt.

(** ** The error taxonomy of the specification *)

Inductive ErrorClass :=
| ConfigurationError
| DiscoveryError
| ReadError
| ValidationError
| GatewayError
| RenderError.

Definition classify (m : Fatal) : ErrorClass :=
  match m with
  | FatalDirsRequired | FatalGovernorNotAvailable => ConfigurationError
  | FatalListJSON _ | FatalNoJSONFiles => DiscoveryError
  | FatalReadFile _ _ => ReadError
  | FatalInvalidJSON _ _ | FatalFormatJSON _ => ValidationError
  | FatalBudgetExceeded _ | FatalModelNotAllowed _
  | FatalGovernorError _ _ | FatalInvokeLLM _ => GatewayError
  | FatalGeneratePDF _ => RenderError
  end.

(** ** A concrete setting to run the program in *)

Module Sample.

(** A stand-in for [encoding/json]: a document is accepted when it is
    enclosed in braces or brackets; pretty-printing returns it as it is. *)
Definition looks_like_json (data : string) : bool :=
  match data with
  | String c _ =>
      (Ascii.eqb c "{"%char && String.eqb (String.substring (String.length data - 1) 1 data) "}")
      || (Ascii.eqb c "["%char && String.eqb (String.substring (String.length data - 1) 1 data) "]")
  | EmptyString => false
  end.

Definition line_feed : ascii := Ascii.ascii_of_nat 10.

(** A stand-in for [fpdf]: a multi-cell breaks its string at the line feeds
    only, and a document is written as its text elements, one per line,
    followed by the date of its creation. *)

Fixpoint split_lines (txt : string) : list string :=
  match txt with
  | EmptyString => [EmptyString]
  | String c rest =>
      if Ascii.eqb c line_feed then EmptyString :: split_lines rest
      else match split_lines rest with
           | line :: lines => String c line :: lines
           | [] => [String c EmptyString]
           end
  end.

#[local] Instance lines : fpdf.LineBreaking := λ _ _ txt, split_lines txt.

Definition creation_date (t : time.Time) : string :=
  "D:" +:+ time.zero_pad 4 (time.year t) +:+ time.zero_pad 2 (time.month t) +:+
  time.zero_pad 2 (time.day t) +:+ time.zero_pad 2 (time.hour t) +:+
  time.zero_pad 2 (time.minute t) +:+ time.zero_pad 2 (time.second t).

Definition serialize (pdf : fpdf.Fpdf) (written : time.Time) : string :=
  GoStrings.Join (fpdf.visible_text pdf ++ [creation_date written])
                 (String line_feed EmptyString).

#[local] Instance libs : External := {|
  ModelHaiku45 := "haiku-4.5";
  IsBudgetExceeded ge := String.eqb (llm.Code ge) "BUDGET_EXCEEDED";
  IsModelNotAllowed ge := String.eqb (llm.Code ge) "MODEL_NOT_ALLOWED";
  JsonValue := string;
  json_Unmarshal data :=
    if looks_like_json data then ok data
    else err (errorString "unexpected end of JSON input");
  json_MarshalIndent v _ _ := ok v;
  fpdf_breaking := lines;
  fpdf_Output := serialize
|}.

Definition noon : time.Time :=
  {| time.year := 2026; time.month := 3; time.day := 9;
     time.hour := 12; time.minute := 0; time.second := 0;
     time.nanosecond := 0 |}.

(** A clock that starts at noon and advances by one second with every
    effect of the run. *)
Definition after_noon (past : list Event) : time.Time :=
  {| time.year := 2026; time.month := 3; time.day := 9;
     time.hour := 12; time.minute := (length past / 60) mod 60;
     time.second := length past mod 60; time.nanosecond := 0 |}.

Definition answer (text : string) : llm.InvokeResponse :=
  {| llm.Text := text; llm.usage := {| llm.EstimatedCostUsd := 0%Qc |} |}.

Definition over_budget : error :=
  GovernorErr {| llm.Code := "BUDGET_EXCEEDED"; llm.Msg := "monthly budget spent";
                 llm.AllowedModels := [] |}.

(** A governor that answers every request, and one whose budget is spent
    after [n] requests. *)
Definition generous : list Event → llm.Governor → llm.InvokeRequest
                      → result llm.InvokeResponse :=
  λ _ _ _, ok (answer "This dataset contains patient records.").

Definition is_invoke (ev : Event) : bool :=
  match ev with EvInvoke _ _ => true | _ => false end.

Definition budget_of (n : nat) : list Event → llm.Governor → llm.InvokeRequest
                                 → result llm.InvokeResponse :=
  λ past _ _,
    if Nat.ltb (length (filter (λ ev, is_invoke ev = true) past)) n
    then ok (answer "This dataset contains patient records.")
    else err over_budget.

Definition directory (names : list string) (pattern : string)
  : result (list string) :=
  if String.eqb pattern "in/*.json" then ok names else ok [].

(** Two well-formed documents and a truncated one in [in/]; [out/] is
    writable.  The listing of [in/] and the governor are left open. *)
Definition world_of (names : list string)
    (gov : list Event → llm.Governor → llm.InvokeRequest
           → result llm.InvokeResponse) : World :=
  {| env := {[ "INPUT_DIR" := "in"; "OUTPUT_DIR" := "out";
               "LLM_GOVERNOR_FUNCTION" := "arn:aws:lambda:us-east-1:123456789:function:llm-governor";
               "EXECUTION_RUN_ID" := "test-run-001" ]};
     files := {[ "in/patients.json" := "{ patients }";
                 "in/visits.json" := "[1, 2]";
                 "in/broken.json" := "{ a :" ]};
     can_create name := String.prefix "out/" name;
     listing := directory names;
     governor := gov;
     clock := after_noon;
     invocations := [];
     trace := [];
     logged := [] |}.

Definition world : World :=
  world_of ["in/patients.json"; "in/visits.json"] generous.

(** The same directory listed with the truncated document in the middle. *)
Definition world_broken : World :=
  world_of ["in/patients.json"; "in/broken.json"; "in/visits.json"] generous.

(** The same directory with a governor whose budget allows one request. *)
Definition world_budget : World :=
  world_of ["in/patients.json"; "in/visits.json"] (budget_of 1).

(** The same directory with nothing listed. *)
Definition world_empty : World := world_of [] generous.

(** The same surroundings in a Lambda runtime, with one invocation pending:
    the configuration is in the event, not in the environment. *)
Definition event : LambdaEvent :=
  {| InputDir := "in"; OutputDir := "out"; ExecutionRunID := "test-run-001";
     ComputeNodeID := "node-1"; SessionToken := "s"; RefreshToken := "r" |}.

Definition world_lambda : World :=
  with_invocations [event]
    (with_env {[ "AWS_LAMBDA_RUNTIME_API" := "127.0.0.1:9001";
                 "LLM_GOVERNOR_FUNCTION" := "arn:aws:lambda:us-east-1:123456789:function:llm-governor" ]}
       world).

(** The same directory listed with a name that is not in the file store. *)
Definition world_gone : World :=
  world_of ["in/patients.json"; "in/gone.json"; "in/visits.json"] generous.

(** The same directory with a governor whose budget is already spent. *)
Definition world_no_budget : World :=
  world_of ["in/patients.json"; "in/visits.json"] (budget_of 0).

(** The same surroundings with an output directory nothing can be created
    in. *)
Definition world_readonly : World :=
  {| env := env world; files := files world; can_create _ := false;
     listing := listing world; governor := governor world;
     clock := clock world; invocations := invocations world;
     trace := trace world; logged := logged world |}.

(** Two directories [in1/] and [in2/] holding a file of the same name, listed
    together by a pattern on the directory. *)
Definition world_two_dirs : World :=
  {| env := env world;
     files := {[ "in1/patients.json" := "{ patients }";
                 "in2/patients.json" := "[1, 2]" ]};
     can_create := can_create world;
     listing pattern :=
       if String.eqb pattern "in*/*.json"
       then ok ["in1/patients.json"; "in2/patients.json"] else ok [];
     governor := governor world; clock := clock world;
     invocations := invocations world; trace := trace world;
     logged := logged world |}.

(** An event without input directory, and one whose run identifier holds a
    NUL byte. *)
Definition event_no_dir : LambdaEvent :=
  {| InputDir := ""; OutputDir := "out"; ExecutionRunID := "test-run-002";
     ComputeNodeID := "node-1"; SessionToken := "s"; RefreshToken := "r" |}.

Definition event_nul : LambdaEvent :=
  {| InputDir := "in"; OutputDir := "out";
     ExecutionRunID := String zero_byte "run";
     ComputeNodeID := "node-1"; SessionToken := "s"; RefreshToken := "r" |}.

(** The Lambda runtime with two invocations pending, the first without input
    directory. *)
Definition world_lambda_two : World :=
  with_invocations [event_no_dir; event] world_lambda.

(** A stand-in for [encoding/json] whose pretty-printer fails. *)
#[local] Instance libs_unprintable : External := {|
  ModelHaiku45 := "haiku-4.5";
  IsBudgetExceeded ge := String.eqb (llm.Code ge) "BUDGET_EXCEEDED";
  IsModelNotAllowed ge := String.eqb (llm.Code ge) "MODEL_NOT_ALLOWED";
  JsonValue := string;
  json_Unmarshal data :=
    if looks_like_json data then ok data
    else err (errorString "unexpected end of JSON input");
  json_MarshalIndent v _ _ := err (errorString "unsupported value");
  fpdf_breaking := lines;
  fpdf_Output := serialize
|}.

End Sample.

(** ** The vocabulary of the properties *)

(** A string without path separator: a single path element. *)
Definition plain (n : string) : Prop := has_byte filepath.Separator n = false.

(** A real path element: what [Clean] keeps as it is. *)
Definition real_element (n : string) : Prop :=
  plain n ∧ n ≠ "" ∧ n ≠ "." ∧ n ≠ "..".

(** What [filepath.Join] puts in front of a real element joined to [dir]. *)
Definition child_prefix (dir : string) : string :=
  let out := fold_left (filepath.clean_step (filepath.rooted dir))
                       (filepath.elements dir) [] in
  (if filepath.rooted dir then "/" else "") +:+
  match rev out with
  | [] => ""
  | es => GoStrings.Join es "/" +:+ "/"
  end.

(** What stays fixed while the program runs. *)
Definition same_setting (w w' : World) : Prop :=
  can_create w' = can_create w ∧ listing w' = listing w ∧
  governor w' = governor w ∧ clock w' = clock w ∧
  invocations w' = invocations w.

(** A computation that neither reads nor writes the process environment. *)
Definition env_blind {A : Type} (c : M A) : Prop :=
  ∀ e w, c (with_env e w) = (let '(r, w') := c w in (r, with_env e w')).

(** The client [llm.NewGovernor] makes in the world [w]. *)
Definition client_of (w : World) : llm.Governor :=
  {| llm.functionName := default "" (env w !! "LLM_GOVERNOR_FUNCTION");
     llm.executionRunID := default "" (env w !! "EXECUTION_RUN_ID") |}.

(** The world in which the loop over the [n] listed files starts. *)
Definition discovered (inputDir outputDir : string) (n : nat) (w : World) : World :=
  log_line (inl (LogFound n))
    (record (EvGlob (filepath.Join [inputDir; "*.json"]))
       (log_line (inl (LogOutputDir outputDir))
          (log_line (inl (LogInputDir inputDir))
             (log_line (inl LogStarting) w)))).

(** What a run leaves in the trace. *)
Definition created (t : list Event) : list string :=
  omap (λ ev, match ev with EvCreate name => Some name | _ => None end) t.

Definition requested (t : list Event) : list llm.InvokeRequest :=
  omap (λ ev, match ev with EvInvoke _ req => Some req | _ => None end) t.

Definition opened (t : list Event) : list string :=
  omap (λ ev, match ev with EvReadFile name => Some name | _ => None end) t.

(** Two worlds with the same surroundings: they may differ in the process
    environment, the pending invocations and what was logged. *)
Definition same_surroundings (w v : World) : Prop :=
  files w = files v ∧ can_create w = can_create v ∧ listing w = listing v ∧
  governor w = governor v ∧ clock w = clock v ∧ trace w = trace v.

(** Two worlds with the same surroundings that have logged the same lines
    since their logs were [lw] and [lv]. *)
Definition alike (lw lv : list (LogMsg + Fatal)) (w v : World) : Prop :=
  same_surroundings w v ∧
  ∃ lines, logged w = (lw ++ lines)%list ∧ logged v = (lv ++ lines)%list.

(** The clients the requests of a trace were sent through. *)
Definition clients (t : list Event) : list llm.Governor :=
  omap (λ ev, match ev with EvInvoke gov _ => Some gov | _ => None end) t.

(** What one turn of the loop leaves when it runs to its end on [jsonFile]:
    a read, a request and the creation of the report, in this order, the
    report in the file store, and the rest of the world as it was. *)
Definition file_done (outputDir jsonFile : string) (w w' : World) : Prop :=
  ∃ gov req doc,
    trace w' = (trace w ++ [EvReadFile jsonFile; EvInvoke gov req;
                            EvCreate (pdfPath_of outputDir jsonFile)])%list ∧
    files w' = <[pdfPath_of outputDir jsonFile := doc]> (files w) ∧
    env w' = env w ∧ same_setting w w'.

Section Vocabulary.

Context `{External}.

(** The report [process_file] writes at [path] for [jsonFile] from the
    answer [resp], when the clock is read after the events [past]: the
    document is drawn for that reading, and serialized once the file is
    created. *)
Definition report_for (w : World) (past : list Event) (path jsonFile : string)
    (resp : llm.InvokeResponse) : string :=
  fpdf_Output (report (baseName_of jsonFile) (llm.Text resp) (clock w past))
              (clock w (past ++ [EvCreate path])).

(** The events of [process_file] on [jsonFile], in the world [w]. *)
Definition file_events (gov : llm.Governor) (outputDir jsonFile : string)
    (w : World) : list Event :=
  EvReadFile jsonFile ::
  match files w !! jsonFile with
  | Some data =>
      match json_Unmarshal data with
      | ok _ =>
          let req := summarize_request (baseName_of jsonFile) data in
          EvInvoke gov req ::
          match governor w (trace w ++ [EvReadFile jsonFile]) gov req with
          | ok _ => [EvCreate (pdfPath_of outputDir jsonFile)]
          | err _ => []
          end
      | err _ => []
      end
  | None => []
  end.

(** The events of [TextPrompt.process_file] on [jsonFile], in the world [w]. *)
Definition TextPrompt_file_events (gov : llm.Governor)
    (outputDir jsonFile : string) (w : World) : list Event :=
  EvReadFile jsonFile ::
  match files w !! jsonFile with
  | Some data =>
      match json_Unmarshal data with
      | ok parsed =>
          match json_MarshalIndent parsed "" "  " with
          | ok prettyJSON =>
              let req := TextPrompt.summarize_request prettyJSON in
              EvInvoke gov req ::
              match governor w (trace w ++ [EvReadFile jsonFile]) gov req with
              | ok _ => [EvCreate (pdfPath_of outputDir jsonFile)]
              | err _ => []
              end
          | err _ => []
          end
      | err _ => []
      end
  | None => []
  end.

End Vocabulary.

Global Arguments filepath.Join : simpl never.
Global Arguments filepath.Base : simpl never.
Global Arguments filepath.Ext : simpl never.
Global Arguments GoStrings.TrimSuffix : simpl never.
Global Arguments base64.EncodeToString : simpl never.
Global Arguments time.Format_minute_UTC : simpl never.
Global Arguments report : simpl never.
Global Arguments summarize_request : simpl never.
Global Arguments TextPrompt.summarize_request : simpl never.
Global Arguments baseName_of : simpl never.
Global Arguments pdfPath_of : simpl never.

Ltac unfold_effects :=
  unfold when, log_Printf, log_Println, log_Fatalf, log_Fatal,
    os_Getenv, os_ReadFile, filepath_Glob, gov_Invoke, time_Now,
    fpdf_OutputFileAndClose, mbind, M_bind, mret, M_ret in *.

(** [os.Create] looks at the file store and at the directories only: what
    was logged and recorded since [w] plays no part. *)
Ltac create_in w :=
  repeat match goal with
  | |- context [creatable ?v ?p] =>
      tryif constr_eq v w then fail
      else change (creatable v p) with (creatable w p)
  end.

(** Closing the leaves of a comparison of two runs: same outcome, and worlds
    that are still [alike]. *)
Ltac alike_worlds Hw Hv :=
  split;
  [ repeat split; cbn; congruence
  | eexists; cbn; rewrite Hw, Hv, <- ?(assoc_L (++)); split; reflexivity ].

Ltac alike_leaf Hw Hv := split; [done | alike_worlds Hw Hv].

(** * Properties *)

(** ** The library functions on examples *)

Example Clean_ex1 : filepath.Clean "a/b/../c//d/." = "a/c/d". Proof. reflexivity. Qed.
Example Clean_ex2 : filepath.Clean "/../a" = "/a". Proof. reflexivity. Qed.
Example Clean_ex3 : filepath.Clean "a/../.." = "..". Proof. reflexivity. Qed.
Example Clean_ex4 : filepath.Clean "../../a/.." = "../..". Proof. reflexivity. Qed.
Example Clean_ex5 : filepath.Clean "/" = "/". Proof. reflexivity. Qed.
Example Clean_ex6 : filepath.Clean "./" = ".". Proof. reflexivity. Qed.
Example Join_ex1 : filepath.Join ["in/"; "*.json"] = "in/*.json". Proof. reflexivity. Qed.
Example Join_ex2 : filepath.Join ["/"; "x.pdf"] = "/x.pdf". Proof. reflexivity. Qed.
Example Join_ex3 : filepath.Join ["."; "x.pdf"] = "x.pdf". Proof. reflexivity. Qed.
Example Base_ex1 : filepath.Base "in/a.b.json" = "a.b.json". Proof. reflexivity. Qed.
Example Base_ex2 : filepath.Base "in/d//" = "d". Proof. reflexivity. Qed.
Example Base_ex3 : filepath.Base "//" = "/". Proof. reflexivity. Qed.
Example Ext_ex1 : filepath.Ext "in.d/a.b.json" = ".json". Proof. reflexivity. Qed.
Example Ext_ex2 : filepath.Ext "in.d/a" = "". Proof. reflexivity. Qed.
Example Ext_ex3 : filepath.Ext "in/a.json/" = "". Proof. reflexivity. Qed.
Example Trim_ex1 : GoStrings.TrimSuffix "a.b.json" ".json" = "a.b". Proof. reflexivity. Qed.
Example Trim_ex2 : GoStrings.TrimSuffix "a.txt" ".json" = "a.txt". Proof. reflexivity. Qed.
Example base64_ex1 : base64.EncodeToString "Man" = "TWFu". Proof. reflexivity. Qed.
Example base64_ex2 : base64.EncodeToString "Ma" = "TWE=". Proof. reflexivity. Qed.
Example base64_ex3 : base64.EncodeToString "M" = "TQ==". Proof. reflexivity. Qed.
Example Format_ex :
  time.Format_minute_UTC
    {| time.year := 2026; time.month := 3; time.day := 9;
       time.hour := 7; time.minute := 5; time.second := 59;
       time.nanosecond := 0 |} = "2026-03-09 07:05 UTC".
Proof. reflexivity. Qed.

(** ** Text elements *)

(** An operation that is given no string draws no text element, and a cell
    draws its string whole, however multi-cells break theirs. *)
Lemma shown_text_None `{fpdf.LineBreaking} (past : list fpdf.Op) (op : fpdf.Op) :
  fpdf.shown_text op = None → fpdf.shown_elements past op = [].
Proof.
  destruct op as [| | |? ? txt ? ? ? ? ? ?| | | | |? ? txt ? ? ?]; cbn; try done;
    by destruct (String.eqb txt "").
Qed.

Lemma shown_elements_cell `{fpdf.LineBreaking}
    (past : list fpdf.Op) w h txt border ln align fill link linkStr :
  txt ≠ "" →
  fpdf.shown_elements past
    (fpdf.OpCellFormat w h txt border ln align fill link linkStr) = [txt].
Proof. intros Hne%String.eqb_neq. cbn. by rewrite Hne. Qed.

(** ** Strings and paths *)

Lemma string_app_nil_l (s : string) : "" +:+ s = s.
Proof. reflexivity. Qed.

Lemma string_app_cons (c : ascii) (s t : string) : String c s +:+ t = String c (s +:+ t).
Proof. reflexivity. Qed.

Lemma string_app_nil_r (s : string) : s +:+ "" = s.
Proof. induction s as [|c s IH]; [done|]. by rewrite string_app_cons, IH. Qed.

Lemma string_app_assoc (s t u : string) : (s +:+ t) +:+ u = s +:+ (t +:+ u).
Proof. induction s as [|c s IH]; [done|]. rewrite !string_app_cons. by rewrite IH. Qed.

Lemma string_app_length (s t : string) :
  String.length (s +:+ t) = String.length s + String.length t.
Proof. induction s as [|c s IH]; [done|]. rewrite string_app_cons. cbn. by rewrite IH. Qed.

Lemma eqb_false_length (s t : string) :
  String.length s ≠ String.length t → String.eqb s t = false.
Proof. intros Hl. apply String.eqb_neq. by intros ->. Qed.

Lemma plain_cons c n :
  plain (String c n) ↔ filepath.IsPathSeparator c = false ∧ plain n.
Proof.
  unfold plain, filepath.IsPathSeparator. cbn.
  rewrite Ascii.eqb_sym. rewrite orb_false_iff. done.
Qed.

Lemma plain_app s t : plain s → plain t → plain (s +:+ t).
Proof.
  induction s as [|c s IH]; [done|]. rewrite string_app_cons, !plain_cons.
  intros [? ?] ?. auto.
Qed.

Lemma strip_suffix_app suffix x :
  GoStrings.strip_suffix suffix (x +:+ suffix) = Some x.
Proof.
  induction x as [|c x IH].
  - rewrite string_app_nil_l. destruct suffix; cbn; [done|].
    by rewrite Ascii.eqb_refl, String.eqb_refl.
  - rewrite string_app_cons. cbn [GoStrings.strip_suffix].
    rewrite eqb_false_length.
    + by rewrite IH.
    + cbn. rewrite string_app_length. lia.
Qed.

Lemma TrimSuffix_app x suffix : GoStrings.TrimSuffix (x +:+ suffix) suffix = x.
Proof. unfold GoStrings.TrimSuffix. by rewrite strip_suffix_app. Qed.

Lemma GoStrings_Join_snoc (l : list string) (n sep : string) :
  GoStrings.Join (l ++ [n]) sep =
  match l with
  | [] => n
  | _ => GoStrings.Join l sep +:+ sep +:+ n
  end.
Proof.
  induction l as [|e l IH]; [done|].
  destruct l as [|e' l]; [done|].
  change (GoStrings.Join ((e :: e' :: l) ++ [n]) sep)
    with (e +:+ sep +:+ GoStrings.Join ((e' :: l) ++ [n]) sep).
  rewrite IH.
  change (GoStrings.Join (e :: e' :: l) sep)
    with (e +:+ sep +:+ GoStrings.Join (e' :: l) sep).
  by rewrite !string_app_assoc.
Qed.

Lemma elements_not_nil path : filepath.elements path ≠ [].
Proof.
  destruct path as [|c rest]; [done|]. cbn.
  destruct (filepath.IsPathSeparator c); [done|].
  by destruct (filepath.elements rest).
Qed.

Lemma elements_plain n : plain n → filepath.elements n = [n].
Proof.
  induction n as [|c n IH]; [done|].
  rewrite plain_cons. intros [Hc Hn]. cbn. rewrite Hc, (IH Hn). done.
Qed.

Lemma elements_app_sep d n :
  filepath.elements (d +:+ String filepath.Separator n)
  = (filepath.elements d ++ filepath.elements n)%list.
Proof.
  induction d as [|c d IH]; [done|].
  rewrite string_app_cons. cbn [filepath.elements]. rewrite IH.
  destruct (filepath.IsPathSeparator c); [done|].
  pose proof (elements_not_nil d).
  by destruct (filepath.elements d).
Qed.

Lemma clean_step_real is_rooted out n :
  real_element n → filepath.clean_step is_rooted out n = n :: out.
Proof.
  intros (_ & H1 & H2 & H3). unfold filepath.clean_step.
  apply String.eqb_neq in H1, H2, H3. by rewrite H1, H2, H3.
Qed.

Lemma rooted_app d s : d ≠ "" → filepath.rooted (d +:+ s) = filepath.rooted d.
Proof. by destruct d. Qed.

Lemma Join_child dir n :
  dir ≠ "" → real_element n →
  filepath.Join [dir; n] = child_prefix dir +:+ n.
Proof.
  intros Hd Hn. pose proof Hn as (Hp & Hne & _).
  unfold filepath.Join. apply String.eqb_neq in Hd as Hd'. rewrite Hd'.
  change (GoStrings.Join [dir; n] "/") with (dir +:+ String filepath.Separator n).
  unfold filepath.Clean, child_prefix, filepath.clean_elements.
  assert (dir +:+ String filepath.Separator n ≠ "") as Hne'.
  { destruct dir; done. }
  apply String.eqb_neq in Hne'. rewrite Hne'.
  rewrite rooted_app by done.
  rewrite elements_app_sep, (elements_plain n Hp), fold_left_app. cbn [fold_left].
  rewrite clean_step_real by done.
  set (out := fold_left _ _ _). cbn [rev]. rewrite GoStrings_Join_snoc.
  destruct (filepath.rooted dir).
  - destruct (rev out); [done|]. by rewrite !string_app_assoc.
  - destruct (rev out) as [|e es] eqn:Hout.
    + apply String.eqb_neq in Hne. by rewrite Hne.
    + rewrite !string_app_assoc, string_app_nil_l.
      assert (GoStrings.Join (e :: es) "/" +:+ "/" +:+ n ≠ "") as Hb.
      { intros Hb. apply (f_equal String.length) in Hb.
        rewrite !string_app_length in Hb. cbn in Hb. lia. }
      apply String.eqb_neq in Hb. by rewrite Hb.
Qed.

Lemma child_prefix_shape dir :
  child_prefix dir = "" ∨ ∃ q, child_prefix dir = q +:+ "/".
Proof.
  unfold child_prefix.
  destruct (filepath.rooted dir), (rev _) as [|e es].
  - right. by exists "".
  - right. exists ("/" +:+ GoStrings.Join (e :: es) "/"). by rewrite string_app_assoc.
  - by left.
  - right. by exists (GoStrings.Join (e :: es) "/").
Qed.

Lemma elements_prefixed p n :
  (p = "" ∨ ∃ q, p = q +:+ "/") → plain n →
  ∃ es, filepath.elements (p +:+ n) = (es ++ [n])%list.
Proof.
  intros [-> | [q ->]] Hn.
  - exists []. by rewrite string_app_nil_l, (elements_plain n Hn).
  - exists (filepath.elements q). rewrite string_app_assoc.
    change ("/" +:+ n) with (String filepath.Separator n).
    by rewrite elements_app_sep, (elements_plain n Hn).
Qed.

Lemma last_nonempty_snoc es n :
  n ≠ "" → filepath.last_nonempty (es ++ [n]) = Some n.
Proof.
  intros Hn%String.eqb_neq. induction es as [|e es IH]; cbn.
  - by rewrite Hn.
  - by rewrite IH.
Qed.

Lemma Base_prefixed p n :
  (p = "" ∨ ∃ q, p = q +:+ "/") → plain n → n ≠ "" →
  filepath.Base (p +:+ n) = n.
Proof.
  intros Hp Hn Hne. unfold filepath.Base.
  destruct (elements_prefixed p n Hp Hn) as [es ->].
  rewrite last_nonempty_snoc by done.
  assert (p +:+ n ≠ "") as Hpn%String.eqb_neq.
  { intros Hpn%(f_equal String.length). rewrite string_app_length in Hpn.
    destruct n; [done|]. cbn in Hpn. lia. }
  by rewrite Hpn.
Qed.

Lemma Ext_prefixed p n :
  (p = "" ∨ ∃ q, p = q +:+ "/") → plain n →
  filepath.Ext (p +:+ n) = filepath.ext_of n.
Proof.
  intros Hp Hn. unfold filepath.Ext.
  destruct (elements_prefixed p n Hp Hn) as [es ->].
  by rewrite last_snoc.
Qed.

Lemma ext_of_json x : filepath.ext_of (x +:+ ".json") = ".json".
Proof.
  induction x as [|c x IH]; [done|].
  rewrite string_app_cons. cbn [filepath.ext_of]. by rewrite IH.
Qed.

Lemma real_element_suffixed x suffix :
  plain x → plain suffix → (3 ≤ String.length suffix)%nat →
  real_element (x +:+ suffix).
Proof.
  intros Hx Hs Hl. split; [by apply plain_app|].
  split_and!; intros Heq%(f_equal String.length);
    rewrite string_app_length in Heq; cbn in Heq; lia.
Qed.

Lemma real_element_json x : plain x → real_element (x +:+ ".json").
Proof. intros. apply real_element_suffixed; [done|done|cbn; lia]. Qed.

Lemma real_element_summary x : plain x → real_element (x +:+ "-summary.pdf").
Proof. intros. apply real_element_suffixed; [done|done|cbn; lia]. Qed.

Lemma baseName_of_child dir x :
  dir ≠ "" → plain x → baseName_of (filepath.Join [dir; x +:+ ".json"]) = x.
Proof.
  intros Hd Hx. unfold baseName_of.
  pose proof (real_element_json x Hx) as Hr. pose proof Hr as (Hp & Hne & _).
  rewrite Join_child by done.
  rewrite Base_prefixed, Ext_prefixed by auto using child_prefix_shape.
  by rewrite ext_of_json, TrimSuffix_app.
Qed.

Lemma pdfPath_of_child outputDir dir x :
  dir ≠ "" → plain x →
  pdfPath_of outputDir (filepath.Join [dir; x +:+ ".json"])
  = filepath.Join [outputDir; x +:+ "-summary.pdf"].
Proof. intros. unfold pdfPath_of. by rewrite baseName_of_child. Qed.

Lemma summary_path_inj outputDir x y :
  outputDir ≠ "" → plain x → plain y →
  filepath.Join [outputDir; x +:+ "-summary.pdf"]
  = filepath.Join [outputDir; y +:+ "-summary.pdf"] →
  x = y.
Proof.
  intros Ho Hx Hy. rewrite !Join_child by auto using real_element_summary.
  intros Heq%(inj _)%(f_equal (λ s, GoStrings.TrimSuffix s "-summary.pdf")).
  by rewrite !TrimSuffix_app in Heq.
Qed.

(** ** The monad and the loop *)

Lemma for_range_app {A : Type} (xs ys : list A) (body : A → M unit) (w : World) :
  for_range (xs ++ ys) body w = (for_range xs body;; for_range ys body) w.
Proof.
  revert w. induction xs as [|x xs IH]; intros w; [done|].
  cbn [for_range app]. unfold mbind, M_bind in *.
  destruct (body x w) as [[[]|m] w1]; [|done]. apply IH.
Qed.

(** A file that makes the process exit ends the loop there: the files after
    it are not touched. *)
Lemma for_range_exits {A : Type} (pre : list A) (x : A) (post : list A)
    (body : A → M unit) (w w1 w2 : World) (m : Fatal) :
  for_range pre body w = (Returned tt, w1) →
  body x w1 = (Exited m, w2) →
  for_range (pre ++ x :: post) body w = (Exited m, w2).
Proof.
  intros Hpre Hx. rewrite for_range_app. unfold mbind, M_bind.
  rewrite Hpre. cbn [for_range]. unfold mbind, M_bind. by rewrite Hx.
Qed.

Lemma same_setting_refl w : same_setting w w.
Proof. by repeat split. Qed.

Lemma same_setting_trans w1 w2 w3 :
  same_setting w1 w2 → same_setting w2 w3 → same_setting w1 w3.
Proof.
  intros (?&?&?&?&?) (?&?&?&?&?). repeat split; congruence.
Qed.

Section ProcessorFacts.

Context `{External}.

(** [generatePDF], step by step: the clock is read, the document drawn, and
    the file created and written. *)
Lemma generatePDF_eq path title body w :
  generatePDF path title body w =
  let w' := record (EvCreate path) w in
  if creatable w path
  then (Returned None,
        with_files (<[path := fpdf_Output (report title body (clock w (trace w)))
                                          (clock w (trace w ++ [EvCreate path]))]>
                      (files w)) w')
  else (Returned (Some (errorString ("open " +:+ path))), w').
Proof. reflexivity. Qed.

(** A file processed to the end: it was read, parsed, summarized and its
    report written, in this order, and nothing else happened. *)
Lemma process_file_Returned gov outputDir jsonFile w w' :
  process_file gov outputDir jsonFile w = (Returned tt, w') →
  ∃ data parsed resp,
    let req := summarize_request (baseName_of jsonFile) data in
    let past := (trace w ++ [EvReadFile jsonFile; EvInvoke gov req])%list in
    files w !! jsonFile = Some data ∧
    json_Unmarshal data = ok parsed ∧
    governor w (trace w ++ [EvReadFile jsonFile]) gov req = ok resp ∧
    creatable w (pdfPath_of outputDir jsonFile) = true ∧
    trace w' = (past ++ [EvCreate (pdfPath_of outputDir jsonFile)])%list ∧
    files w' = <[pdfPath_of outputDir jsonFile :=
                   report_for w past (pdfPath_of outputDir jsonFile) jsonFile resp]>
                 (files w) ∧
    env w' = env w ∧ same_setting w w'.
Proof.
  unfold process_file, generatePDF, fatal_invoke_error. unfold_effects. cbn.
  fold (baseName_of jsonFile). fold (pdfPath_of outputDir jsonFile).
  destruct (files w !! jsonFile) as [data|] eqn:Hread; [|done].
  destruct (json_Unmarshal data) as [parsed|e] eqn:Hjson; [|done].
  cbn. destruct (governor w _ gov _) as [resp|e] eqn:Hgov.
  - cbn. create_in w. destruct (creatable w _) eqn:Hcreate; [|done].
    intros [= <-]. exists data, parsed, resp. unfold report_for. cbn.
    rewrite <- !(assoc_L (++)). by repeat split.
  - destruct (IsGovernorError e) as [ge|]; [|done].
    by destruct (IsBudgetExceeded ge), (IsModelNotAllowed ge).
Qed.

Lemma for_range_env_blind {A : Type} (xs : list A) (body : A → M unit) :
  (∀ x, env_blind (body x)) → env_blind (for_range xs body).
Proof.
  intros Hbody. induction xs as [|x xs IH]; intros e w; [done|].
  cbn [for_range]. unfold mbind, M_bind. rewrite Hbody.
  destruct (body x w) as [[[]|m] w1]; [|done]. apply IH.
Qed.

Lemma process_file_env_blind gov outputDir jsonFile :
  env_blind (process_file gov outputDir jsonFile).
Proof.
  intros e w.
  unfold process_file, generatePDF, fatal_invoke_error. unfold_effects. cbn.
  destruct (files w !! jsonFile) as [data|]; [|done].
  destruct (json_Unmarshal data) as [parsed|?]; [|done].
  cbn. destruct (governor w _ gov _) as [resp|err].
  - cbn. create_in w. by destruct (creatable w _).
  - destruct (IsGovernorError err) as [ge|]; [|done].
    by destruct (IsBudgetExceeded ge), (IsModelNotAllowed ge).
Qed.

Lemma env_blind_env {A : Type} (c : M A) w r w' :
  env_blind c → c w = (r, w') → env w' = env w.
Proof.
  intros Hc Hrun. specialize (Hc (env w) w).
  assert (with_env (env w) w = w) as Heta by by destruct w.
  rewrite Heta, Hrun in Hc. by injection Hc as ->.
Qed.

(** [runProcessor], guard by guard. *)
Lemma runProcessor_eq inputDir outputDir executionRunID w :
  runProcessor inputDir outputDir executionRunID w =
  let w1 := log_line (inl LogStarting) w in
  if String.eqb inputDir "" || String.eqb outputDir "" then
    (Exited FatalDirsRequired, log_line (inr FatalDirsRequired) w1)
  else
    let w2 := log_line (inl (LogOutputDir outputDir))
                (log_line (inl (LogInputDir inputDir)) w1) in
    if negb (llm.Available (client_of w)) then
      (Exited FatalGovernorNotAvailable,
       log_line (inr FatalGovernorNotAvailable) w2)
    else
      let w3 := record (EvGlob (filepath.Join [inputDir; "*.json"])) w2 in
      match listing w (filepath.Join [inputDir; "*.json"]) with
      | err e => (Exited (FatalListJSON e), log_line (inr (FatalListJSON e)) w3)
      | ok jsonFiles =>
          if Nat.eqb (length jsonFiles) 0 then
            (Exited FatalNoJSONFiles, log_line (inr FatalNoJSONFiles) w3)
          else
            (for_range jsonFiles (process_file (client_of w) outputDir);;
             log_Println LogComplete)
              (discovered inputDir outputDir (length jsonFiles) w)
      end.
Proof.
  unfold runProcessor, llm_NewGovernor. unfold_effects. cbn.
  destruct (String.eqb inputDir "" || String.eqb outputDir ""); [done|].
  cbn. fold (client_of w).
  destruct (negb (llm.Available (client_of w))); [done|].
  cbn. destruct (listing w _) as [jsonFiles|e]; [|done].
  by destruct (Nat.eqb (length jsonFiles) 0).
Qed.

Lemma runProcessor_with_env inputDir outputDir executionRunID e w :
  client_of (with_env e w) = client_of w →
  runProcessor inputDir outputDir executionRunID (with_env e w) =
  (let '(r, w') := runProcessor inputDir outputDir executionRunID w in
   (r, with_env e w')).
Proof.
  intros Hclient. rewrite !runProcessor_eq. cbn zeta. rewrite Hclient.
  destruct (String.eqb inputDir "" || String.eqb outputDir ""); [done|].
  destruct (negb (llm.Available (client_of w))); [done|].
  change (listing (with_env e w)) with (listing w).
  destruct (listing w _) as [jsonFiles|?]; [|done].
  destruct (Nat.eqb (length jsonFiles) 0); [done|].
  change (discovered inputDir outputDir (length jsonFiles) (with_env e w))
    with (with_env e (discovered inputDir outputDir (length jsonFiles) w)).
  unfold mbind, M_bind.
  rewrite (for_range_env_blind jsonFiles _ (process_file_env_blind _ _)).
  by destruct (for_range jsonFiles _ _) as [[[]|m] w1].
Qed.

Lemma process_file_trace gov outputDir jsonFile w :
  trace (process_file gov outputDir jsonFile w).2
  = (trace w ++ file_events gov outputDir jsonFile w)%list.
Proof.
  unfold process_file, generatePDF, fatal_invoke_error, file_events.
  unfold_effects. cbn.
  fold (baseName_of jsonFile). fold (pdfPath_of outputDir jsonFile).
  destruct (files w !! jsonFile) as [data|]; [|done].
  destruct (json_Unmarshal data) as [parsed|?]; [|done].
  cbn. destruct (governor w _ gov _) as [resp|e].
  - cbn. create_in w. destruct (creatable w _); cbn; by rewrite <- !(assoc_L (++)).
  - destruct (IsGovernorError e) as [ge|]; cbn.
    + destruct (IsBudgetExceeded ge), (IsModelNotAllowed ge); cbn;
        by rewrite <- !(assoc_L (++)).
    + by rewrite <- !(assoc_L (++)).
Qed.

(** A file on which the process exits leaves the file store as it was. *)
Lemma process_file_Exited gov outputDir jsonFile w m w' :
  process_file gov outputDir jsonFile w = (Exited m, w') →
  files w' = files w.
Proof.
  unfold process_file, generatePDF, fatal_invoke_error. unfold_effects. cbn.
  destruct (files w !! jsonFile) as [data|]; [|by intros [= _ <-]].
  destruct (json_Unmarshal data) as [parsed|?]; [|by intros [= _ <-]].
  cbn. destruct (governor w _ gov _) as [resp|e].
  - cbn. create_in w. destruct (creatable w _); [done|by intros [= _ <-]].
  - destruct (IsGovernorError e) as [ge|]; [|by intros [= _ <-]].
    by destruct (IsBudgetExceeded ge), (IsModelNotAllowed ge); intros [= _ <-].
Qed.

Lemma process_file_invalid gov outputDir jsonFile w data e :
  files w !! jsonFile = Some data →
  json_Unmarshal data = err e →
  ∃ w', process_file gov outputDir jsonFile w
        = (Exited (FatalInvalidJSON jsonFile e), w') ∧
        trace w' = (trace w ++ [EvReadFile jsonFile])%list ∧
        files w' = files w.
Proof.
  intros Hread Hjson. eexists. split.
  - unfold process_file. unfold_effects. cbn. rewrite Hread, Hjson. done.
  - done.
Qed.

Lemma process_file_budget gov outputDir jsonFile w data parsed ge :
  files w !! jsonFile = Some data →
  json_Unmarshal data = ok parsed →
  governor w (trace w ++ [EvReadFile jsonFile]) gov
    (summarize_request (baseName_of jsonFile) data) = err (GovernorErr ge) →
  IsBudgetExceeded ge = true →
  ∃ w', process_file gov outputDir jsonFile w
        = (Exited (FatalBudgetExceeded (llm.Msg ge)), w') ∧
        trace w' = (trace w ++ [EvReadFile jsonFile;
                      EvInvoke gov (summarize_request (baseName_of jsonFile) data)])%list ∧
        files w' = files w.
Proof.
  intros Hread Hjson Hgov Hbudget. eexists. split.
  - unfold process_file, fatal_invoke_error. unfold_effects. cbn.
    fold (baseName_of jsonFile).
    rewrite Hread, Hjson. cbn. rewrite Hgov. cbn. rewrite Hbudget. done.
  - cbn. by rewrite <- !(assoc_L (++)).
Qed.

Lemma created_app t1 t2 : created (t1 ++ t2) = (created t1 ++ created t2)%list.
Proof. apply omap_app. Qed.

Lemma requested_app t1 t2 :
  requested (t1 ++ t2) = (requested t1 ++ requested t2)%list.
Proof. apply omap_app. Qed.

Lemma opened_app t1 t2 : opened (t1 ++ t2) = (opened t1 ++ opened t2)%list.
Proof. apply omap_app. Qed.

(** A loop that runs to its end: one read, one request and one report per
    file, in the order of the list. *)
Lemma for_range_Returned gov outputDir jsonFiles w w' :
  for_range jsonFiles (process_file gov outputDir) w = (Returned tt, w') →
  ∃ t,
    trace w' = (trace w ++ t)%list ∧
    opened t = jsonFiles ∧
    length (requested t) = length jsonFiles ∧
    created t = pdfPath_of outputDir <$> jsonFiles ∧
    dom (files w') = dom (files w) ∪ list_to_set (pdfPath_of outputDir <$> jsonFiles) ∧
    (∀ name, name ∈ pdfPath_of outputDir <$> jsonFiles →
       ∃ jsonFile resp past,
         jsonFile ∈ jsonFiles ∧ pdfPath_of outputDir jsonFile = name ∧
         files w' !! name = Some (report_for w past name jsonFile resp)) ∧
    (∀ name, name ∉ pdfPath_of outputDir <$> jsonFiles →
       files w' !! name = files w !! name) ∧
    env w' = env w ∧ same_setting w w'.
Proof.
  revert w. induction jsonFiles as [|f fs IH]; intros w.
  - intros [= <-]. exists []. rewrite (right_id_L [] (++)). cbn.
    split_and!; try done.
    + by rewrite (right_id_L ∅ (∪)).
    + intros name Hin. by apply elem_of_nil in Hin.
  - cbn [for_range]. unfold mbind, M_bind.
    destruct (process_file gov outputDir f w) as [[[]|m] w1] eqn:Hf; [|done].
    intros Hrest.
    apply process_file_Returned in Hf
      as (data & parsed & resp & _ & _ & _ & _ & Htr & Hfiles & Henv & Hset).
    cbn zeta in Htr, Hfiles.
    destruct (IH _ Hrest)
      as (t & Htr' & Hop & Hreq & Hcr & Hdom & Hrep & Hframe & Henv' & Hset').
    eexists (_ :: _ :: _ :: t). split_and!.
    + rewrite Htr', Htr. by rewrite <- !(assoc_L (++)).
    + cbn. by rewrite <- Hop.
    + cbn. by rewrite <- Hreq.
    + cbn. by rewrite <- Hcr.
    + rewrite Hdom, Hfiles, dom_insert_L. cbn.
      by rewrite (comm_L (∪) {[_]} (dom _)), <- (assoc_L (∪)).
    + intros name Hin.
      destruct (decide (name ∈ pdfPath_of outputDir <$> fs)) as [Htail|Htail].
      * destruct (Hrep _ Htail) as (f' & resp' & past' & Hf' & Hname & Hlook).
        exists f', resp', past'. split_and!; [by apply elem_of_cons; right|done|].
        rewrite Hlook. unfold report_for.
        destruct Hset as (_ & _ & _ & -> & _). done.
      * rewrite fmap_cons, elem_of_cons in Hin.
        destruct Hin as [->|Hin]; [|done].
        eexists f, resp, _. split_and!; [by apply elem_of_cons; left|done|].
        rewrite (Hframe _ Htail), Hfiles. apply lookup_insert_eq.
    + intros name Hnot. rewrite fmap_cons, not_elem_of_cons in Hnot.
      destruct Hnot as [Hne Htail].
      rewrite (Hframe _ Htail), Hfiles. by rewrite lookup_insert_ne.
    + congruence.
    + by eapply same_setting_trans.
Qed.

End ProcessorFacts.

(** ** The earlier revision *)

Section TextPromptFacts.

Context `{External}.

(** [TextPrompt.main], guard by guard. *)
Lemma TextPrompt_main_eq w :
  TextPrompt.main w =
  let inputDir := default "" (env w !! "INPUT_DIR") in
  let outputDir := default "" (env w !! "OUTPUT_DIR") in
  let w1 := log_line (inl LogStarting) w in
  if String.eqb inputDir "" || String.eqb outputDir "" then
    (Exited FatalDirsRequired, log_line (inr FatalDirsRequired) w1)
  else
    let w2 := log_line (inl (LogOutputDir outputDir))
                (log_line (inl (LogInputDir inputDir)) w1) in
    if negb (llm.Available (client_of w)) then
      (Exited FatalGovernorNotAvailable,
       log_line (inr FatalGovernorNotAvailable) w2)
    else
      let w3 := record (EvGlob (filepath.Join [inputDir; "*.json"])) w2 in
      match listing w (filepath.Join [inputDir; "*.json"]) with
      | err e => (Exited (FatalListJSON e), log_line (inr (FatalListJSON e)) w3)
      | ok jsonFiles =>
          if Nat.eqb (length jsonFiles) 0 then
            (Exited FatalNoJSONFiles, log_line (inr FatalNoJSONFiles) w3)
          else
            (for_range jsonFiles (TextPrompt.process_file (client_of w) outputDir);;
             log_Println LogComplete)
              (discovered inputDir outputDir (length jsonFiles) w)
      end.
Proof.
  unfold TextPrompt.main, llm_NewGovernor. unfold_effects. cbn.
  destruct (String.eqb _ "" || String.eqb _ ""); [done|].
  cbn. fold (client_of w).
  destruct (negb (llm.Available (client_of w))); [done|].
  cbn. destruct (listing w _) as [jsonFiles|e]; [|done].
  by destruct (Nat.eqb (length jsonFiles) 0).
Qed.

Lemma TextPrompt_process_file_trace gov outputDir jsonFile w :
  trace (TextPrompt.process_file gov outputDir jsonFile w).2
  = (trace w ++ TextPrompt_file_events gov outputDir jsonFile w)%list.
Proof.
  unfold TextPrompt.process_file, TextPrompt.generatePDF, fatal_invoke_error,
    TextPrompt_file_events.
  unfold_effects. cbn.
  fold (baseName_of jsonFile). fold (pdfPath_of outputDir jsonFile).
  destruct (files w !! jsonFile) as [data|]; [|done].
  destruct (json_Unmarshal data) as [parsed|?]; [|done].
  destruct (json_MarshalIndent parsed "" "  ") as [prettyJSON|?]; [|done].
  cbn. destruct (governor w _ gov _) as [resp|e].
  - cbn. create_in w. destruct (creatable w _); cbn; by rewrite <- !(assoc_L (++)).
  - destruct (IsGovernorError e) as [ge|]; cbn.
    + destruct (IsBudgetExceeded ge), (IsModelNotAllowed ge); cbn;
        by rewrite <- !(assoc_L (++)).
    + by rewrite <- !(assoc_L (++)).
Qed.

Lemma TextPrompt_process_file_invalid gov outputDir jsonFile w data e :
  files w !! jsonFile = Some data →
  json_Unmarshal data = err e →
  ∃ w', TextPrompt.process_file gov outputDir jsonFile w
        = (Exited (FatalInvalidJSON jsonFile e), w') ∧
        trace w' = (trace w ++ [EvReadFile jsonFile])%list ∧
        files w' = files w.
Proof.
  intros Hread Hjson. eexists. split.
  - unfold TextPrompt.process_file. unfold_effects. cbn.
    rewrite Hread, Hjson. done.
  - done.
Qed.

End TextPromptFacts.

(** ** Where a run exits *)

Section ExitFacts.

Context `{External}.

(** A run that passes its guards exits where its loop exits. *)
Lemma runProcessor_exits_at inputDir outputDir executionRunID w
    pre jsonFile post w1 m w2 :
  inputDir ≠ "" → outputDir ≠ "" →
  llm.Available (client_of w) = true →
  listing w (filepath.Join [inputDir; "*.json"]) = ok (pre ++ jsonFile :: post)%list →
  for_range pre (process_file (client_of w) outputDir)
    (discovered inputDir outputDir (length (pre ++ jsonFile :: post)%list) w)
  = (Returned tt, w1) →
  process_file (client_of w) outputDir jsonFile w1 = (Exited m, w2) →
  runProcessor inputDir outputDir executionRunID w = (Exited m, w2).
Proof.
  intros Hin%String.eqb_neq Hout%String.eqb_neq Hgov Hlist Hpre Hfile.
  rewrite runProcessor_eq. cbn zeta. rewrite Hin, Hout, Hgov, Hlist. cbn [orb negb].
  destruct (Nat.eqb_spec (length (pre ++ jsonFile :: post)%list) 0) as [Hlen|_].
  { rewrite length_app in Hlen. cbn in Hlen. lia. }
  unfold mbind at 1, M_bind at 1.
  by rewrite (for_range_exits pre jsonFile post _ _ w1 w2 m Hpre Hfile).
Qed.

Lemma TextPrompt_main_exits_at w pre jsonFile post w1 m w2 :
  let inputDir := default "" (env w !! "INPUT_DIR") in
  let outputDir := default "" (env w !! "OUTPUT_DIR") in
  inputDir ≠ "" → outputDir ≠ "" →
  llm.Available (client_of w) = true →
  listing w (filepath.Join [inputDir; "*.json"]) = ok (pre ++ jsonFile :: post)%list →
  for_range pre (TextPrompt.process_file (client_of w) outputDir)
    (discovered inputDir outputDir (length (pre ++ jsonFile :: post)%list) w)
  = (Returned tt, w1) →
  TextPrompt.process_file (client_of w) outputDir jsonFile w1 = (Exited m, w2) →
  TextPrompt.main w = (Exited m, w2).
Proof.
  intros inputDir outputDir
    Hin%String.eqb_neq Hout%String.eqb_neq Hgov Hlist Hpre Hfile.
  rewrite TextPrompt_main_eq. cbn zeta.
  fold inputDir outputDir. rewrite Hin, Hout, Hgov, Hlist. cbn [orb negb].
  destruct (Nat.eqb_spec (length (pre ++ jsonFile :: post)%list) 0) as [Hlen|_].
  { rewrite length_app in Hlen. cbn in Hlen. lia. }
  unfold mbind at 1, M_bind at 1.
  by rewrite (for_range_exits pre jsonFile post _ _ w1 w2 m Hpre Hfile).
Qed.

End ExitFacts.

(** ** The environment and the two entry points *)

Section EntryFacts.

Context `{External}.

(** [runProcessor] leaves the process environment as it is. *)
Lemma runProcessor_env inputDir outputDir executionRunID w r w' :
  runProcessor inputDir outputDir executionRunID w = (r, w') → env w' = env w.
Proof.
  intros Hrun.
  pose proof (runProcessor_with_env inputDir outputDir executionRunID (env w) w
                eq_refl) as Hblind.
  assert (with_env (env w) w = w) as Heta by by destruct w.
  rewrite Heta, Hrun in Hblind. by injection Hblind as ->.
Qed.

(** Without a governor function the run stops at its guards. *)
Lemma runProcessor_unavailable inputDir outputDir executionRunID w :
  llm.Available (client_of w) = false →
  ∃ m w',
    runProcessor inputDir outputDir executionRunID w = (Exited m, w') ∧
    classify m = ConfigurationError ∧
    trace w' = trace w ∧ files w' = files w ∧
    (inputDir ≠ "" → outputDir ≠ "" → m = FatalGovernorNotAvailable).
Proof.
  intros Hgov. rewrite runProcessor_eq. cbn zeta. rewrite Hgov. cbn [negb].
  destruct (String.eqb_spec inputDir "") as [->|Hin]; cbn [orb].
  { eexists _, _. split_and!; done. }
  destruct (String.eqb_spec outputDir "") as [->|Hout].
  { eexists _, _. split_and!; done. }
  eexists _, _. split_and!; done.
Qed.

(** The handler, step by step: the environment is updated (unless the run
    identifier is refused by [os.Setenv]), then the pipeline runs. *)
Lemma handleLambda_eq event w :
  handleLambda event w =
  let w0 := if has_byte zero_byte (ExecutionRunID event) then w
            else with_env (<["EXECUTION_RUN_ID" := ExecutionRunID event]> (env w)) w in
  match runProcessor (InputDir event) (OutputDir event) (ExecutionRunID event) w0 with
  | (Returned _, w') => (Returned None, w')
  | (Exited m, w') => (Exited m, w')
  end.
Proof.
  unfold handleLambda, os_Setenv. unfold_effects. cbn.
  by destruct (has_byte zero_byte (ExecutionRunID event)).
Qed.

End EntryFacts.

(** ** Runs in worlds with the same surroundings *)

Section AlikeFacts.

Context `{External}.

Lemma process_file_alike lw lv gov outputDir jsonFile w v :
  alike lw lv w v →
  (process_file gov outputDir jsonFile w).1
  = (process_file gov outputDir jsonFile v).1 ∧
  alike lw lv (process_file gov outputDir jsonFile w).2
              (process_file gov outputDir jsonFile v).2.
Proof.
  intros ((Hf & Hc & Hl & Hg & Hk & Ht) & lines & Hw & Hv).
  unfold process_file, generatePDF, fatal_invoke_error. unfold_effects. cbn.
  rewrite Hf.
  destruct (files v !! jsonFile) as [data|]; [|alike_leaf Hw Hv].
  destruct (json_Unmarshal data) as [parsed|?]; [|alike_leaf Hw Hv].
  cbn. rewrite Hg, Ht. destruct (governor v _ gov _) as [resp|e].
  - cbn. create_in w. create_in v.
    assert (∀ p, creatable w p = creatable v p) as ->
      by (intros p; unfold creatable; by rewrite Hf, Hc).
    rewrite ?Hk, ?Ht, ?Hf. destruct (creatable v _); alike_leaf Hw Hv.
  - destruct (IsGovernorError e) as [ge|]; [|alike_leaf Hw Hv].
    destruct (IsBudgetExceeded ge), (IsModelNotAllowed ge); alike_leaf Hw Hv.
Qed.

Lemma for_range_alike lw lv gov outputDir jsonFiles w v :
  alike lw lv w v →
  (for_range jsonFiles (process_file gov outputDir) w).1
  = (for_range jsonFiles (process_file gov outputDir) v).1 ∧
  alike lw lv (for_range jsonFiles (process_file gov outputDir) w).2
              (for_range jsonFiles (process_file gov outputDir) v).2.
Proof.
  revert w v. induction jsonFiles as [|f fs IH]; intros w v Halike; [done|].
  cbn [for_range]. unfold mbind, M_bind.
  destruct (process_file_alike lw lv gov outputDir f w v Halike) as [Hr Hw].
  destruct (process_file gov outputDir f w) as [r1 w1],
           (process_file gov outputDir f v) as [r2 v1].
  cbn in Hr, Hw. subst r2. destruct r1 as [[]|m]; [|done]. by apply IH.
Qed.

Lemma runProcessor_alike lw lv inputDir outputDir executionRunID w v :
  alike lw lv w v → client_of w = client_of v →
  (runProcessor inputDir outputDir executionRunID w).1
  = (runProcessor inputDir outputDir executionRunID v).1 ∧
  alike lw lv (runProcessor inputDir outputDir executionRunID w).2
              (runProcessor inputDir outputDir executionRunID v).2.
Proof.
  intros Halike Hclient. rewrite !runProcessor_eq. cbn zeta. rewrite Hclient.
  pose proof Halike as ((Hf & Hc & Hl & Hg & Hk & Ht) & lines & Hw & Hv).
  rewrite Hl.
  destruct (String.eqb inputDir "" || String.eqb outputDir "");
    [alike_leaf Hw Hv|].
  destruct (negb (llm.Available (client_of v))); [alike_leaf Hw Hv|].
  destruct (listing v _) as [jsonFiles|?]; [|alike_leaf Hw Hv].
  destruct (Nat.eqb (length jsonFiles) 0); [alike_leaf Hw Hv|].
  unfold mbind, M_bind.
  assert (alike lw lv (discovered inputDir outputDir (length jsonFiles) w)
                      (discovered inputDir outputDir (length jsonFiles) v))
    as Hstart by alike_worlds Hw Hv.
  destruct (for_range_alike lw lv (client_of v) outputDir jsonFiles _ _ Hstart)
    as [Hr Hend].
  destruct (for_range jsonFiles _ (discovered _ _ _ w)) as [r1 w1],
           (for_range jsonFiles _ (discovered _ _ _ v)) as [r2 v1].
  cbn in Hr, Hend. subst r2.
  destruct Hend as ((?&?&?&?&?&?) & lines' & Hw' & Hv').
  destruct r1 as [[]|m]; alike_leaf Hw' Hv'.
Qed.

End AlikeFacts.

(** * The properties of the specification *)

Section Claims.

Context `{External}.

(** C1. A run that completes on a listing of N files has written exactly N
    reports, one per listed file, and nothing else: the file created for
    [jsonFile] is [pdfPath_of outputDir jsonFile] and holds the report
    rendered from the governor's answer (as drawn for one reading of the
    clock and serialized at a later one).  When the listing is that of one
    directory (distinct names [X.json] joined to the directory), the report
    of [X.json] is [X-summary.pdf] joined to the output directory, and the N
    report names are pairwise distinct. *)
Theorem C1_one_report_per_input
    (inputDir outputDir executionRunID : string) (w w' : World)
    (jsonFiles : list string) :
  listing w (filepath.Join [inputDir; "*.json"]) = ok jsonFiles →
  runProcessor inputDir outputDir executionRunID w = (Returned tt, w') →
  let reports := pdfPath_of outputDir <$> jsonFiles in
  (∃ t, trace w' = (trace w ++ EvGlob (filepath.Join [inputDir; "*.json"]) :: t)%list ∧
        opened t = jsonFiles ∧ created t = reports) ∧
  length reports = length jsonFiles ∧
  dom (files w') = dom (files w) ∪ list_to_set reports ∧
  (∀ name, name ∈ reports →
     ∃ jsonFile resp now written,
       jsonFile ∈ jsonFiles ∧ pdfPath_of outputDir jsonFile = name ∧
       files w' !! name
       = Some (fpdf_Output (report (baseName_of jsonFile) (llm.Text resp) now)
                           written)) ∧
  (∀ dir names,
     dir ≠ "" → Forall plain names → NoDup names →
     jsonFiles = (λ x, filepath.Join [dir; x +:+ ".json"]) <$> names →
     reports = (λ x, filepath.Join [outputDir; x +:+ "-summary.pdf"]) <$> names ∧
     NoDup reports).
Proof.
  intros Hlist Hrun reports. rewrite runProcessor_eq in Hrun. cbn zeta in Hrun.
  destruct (String.eqb inputDir "" || String.eqb outputDir "") eqn:Hdirs; [done|].
  apply orb_false_iff in Hdirs as [_ Hout%String.eqb_neq].
  destruct (negb (llm.Available (client_of w))); [done|].
  rewrite Hlist in Hrun.
  destruct (Nat.eqb (length jsonFiles) 0); [done|].
  unfold mbind, M_bind in Hrun.
  destruct (for_range jsonFiles _ _) as [[[]|m] w1] eqn:Hloop; [|done].
  injection Hrun as <-.
  apply for_range_Returned in Hloop
    as (t & Htr & Hop & _ & Hcr & Hdom & Hrep & _).
  split_and!.
  - exists t. cbn in Htr |- *. rewrite Htr. by rewrite <- (assoc_L (++)).
  - unfold reports. by rewrite length_fmap.
  - done.
  - intros name Hin. destruct (Hrep name Hin) as (f & resp & past & ? & ? & ?).
    by exists f, resp,
      (clock (discovered inputDir outputDir (length jsonFiles) w) past),
      (clock (discovered inputDir outputDir (length jsonFiles) w)
             (past ++ [EvCreate name])).
  - intros dir names Hdir Hplain Hnodup ->.
    assert (reports = (λ x, filepath.Join [outputDir; x +:+ "-summary.pdf"]) <$> names)
      as Hreports.
    { unfold reports. rewrite <- list_fmap_compose. apply Forall_fmap_ext.
      eapply Forall_impl; [exact Hplain|]. intros x Hx. cbn.
      by apply pdfPath_of_child. }
    split; [done|]. rewrite Hreports.
    apply NoDup_fmap_2_strong; [|done].
    intros x y Hx Hy. rewrite Forall_forall in Hplain.
    apply summary_path_inj; auto.
Qed.

(** C2. When a run reaches an input file whose contents [json.Unmarshal]
    rejects, the process exits there with the fatal message for invalid JSON
    (a validation error): the file has been read, and no governor request is
    made for it, nothing is written and no later file is touched.  This
    holds for [runProcessor] and for the [main] of the earlier revision; in
    the per-file pipeline of both, the only effect on such a file is its
    read, so the parse comes before the governor call. *)
Theorem C2_invalid_json_is_fatal :
  (∀ inputDir outputDir executionRunID w pre jsonFile post w1 data e,
     inputDir ≠ "" → outputDir ≠ "" →
     llm.Available (client_of w) = true →
     listing w (filepath.Join [inputDir; "*.json"]) = ok (pre ++ jsonFile :: post)%list →
     for_range pre (process_file (client_of w) outputDir)
       (discovered inputDir outputDir (length (pre ++ jsonFile :: post)%list) w)
     = (Returned tt, w1) →
     files w1 !! jsonFile = Some data →
     json_Unmarshal data = err e →
     ∃ w',
       runProcessor inputDir outputDir executionRunID w
       = (Exited (FatalInvalidJSON jsonFile e), w') ∧
       classify (FatalInvalidJSON jsonFile e) = ValidationError ∧
       trace w' = (trace w1 ++ [EvReadFile jsonFile])%list ∧
       requested (trace w') = requested (trace w1) ∧
       files w' = files w1) ∧
  (∀ w pre jsonFile post w1 data e,
     let inputDir := default "" (env w !! "INPUT_DIR") in
     let outputDir := default "" (env w !! "OUTPUT_DIR") in
     inputDir ≠ "" → outputDir ≠ "" →
     llm.Available (client_of w) = true →
     listing w (filepath.Join [inputDir; "*.json"]) = ok (pre ++ jsonFile :: post)%list →
     for_range pre (TextPrompt.process_file (client_of w) outputDir)
       (discovered inputDir outputDir (length (pre ++ jsonFile :: post)%list) w)
     = (Returned tt, w1) →
     files w1 !! jsonFile = Some data →
     json_Unmarshal data = err e →
     ∃ w',
       TextPrompt.main w = (Exited (FatalInvalidJSON jsonFile e), w') ∧
       trace w' = (trace w1 ++ [EvReadFile jsonFile])%list ∧
       requested (trace w') = requested (trace w1) ∧
       files w' = files w1) ∧
  (∀ gov outputDir jsonFile w data e,
     files w !! jsonFile = Some data →
     json_Unmarshal data = err e →
     ∃ w' v',
       process_file gov outputDir jsonFile w
       = (Exited (FatalInvalidJSON jsonFile e), w') ∧
       trace w' = (trace w ++ [EvReadFile jsonFile])%list ∧
       TextPrompt.process_file gov outputDir jsonFile w
       = (Exited (FatalInvalidJSON jsonFile e), v') ∧
       trace v' = (trace w ++ [EvReadFile jsonFile])%list).
Proof.
  split_and!.
  - intros inputDir outputDir executionRunID w pre jsonFile post w1 data e
      Hin Hout Hgov Hlist Hpre Hread Hjson.
    destruct (process_file_invalid (client_of w) outputDir jsonFile w1 data e
                Hread Hjson) as (w' & Hrun & Htr & Hfiles).
    exists w'. split_and!; try done.
    + by eapply runProcessor_exits_at.
    + rewrite Htr, requested_app. cbn. by rewrite (right_id_L [] (++)).
  - intros w pre jsonFile post w1 data e inputDir outputDir
      Hin Hout Hgov Hlist Hpre Hread Hjson.
    destruct (TextPrompt_process_file_invalid (client_of w) outputDir jsonFile
                w1 data e Hread Hjson) as (w' & Hrun & Htr & Hfiles).
    exists w'. split_and!; try done.
    + by eapply TextPrompt_main_exits_at.
    + rewrite Htr, requested_app. cbn. by rewrite (right_id_L [] (++)).
  - intros gov outputDir jsonFile w data e Hread Hjson.
    destruct (process_file_invalid gov outputDir jsonFile w data e Hread Hjson)
      as (w' & Hrun & Htr & _).
    destruct (TextPrompt_process_file_invalid gov outputDir jsonFile w data e
                Hread Hjson) as (v' & Hrun' & Htr' & _).
    by exists w', v'.
Qed.

(** C3. A run whose listing of [*.json] in the input directory is empty
    exits with a fatal message and leaves the file store as it was: no file
    is read, no governor request is made and no report is created.  When the
    run is configured (both directories given, governor available), the
    message is the one for no JSON files, a discovery error, and the listing
    is the only effect of the run. *)
Theorem C3_empty_listing_is_fatal inputDir outputDir executionRunID w :
  listing w (filepath.Join [inputDir; "*.json"]) = ok [] →
  ∃ m w',
    runProcessor inputDir outputDir executionRunID w = (Exited m, w') ∧
    files w' = files w ∧
    opened (trace w') = opened (trace w) ∧
    requested (trace w') = requested (trace w) ∧
    created (trace w') = created (trace w) ∧
    (inputDir ≠ "" → outputDir ≠ "" → llm.Available (client_of w) = true →
     m = FatalNoJSONFiles ∧ classify m = DiscoveryError ∧
     trace w' = (trace w ++ [EvGlob (filepath.Join [inputDir; "*.json"])])%list).
Proof.
  intros Hlist. rewrite runProcessor_eq. cbn zeta. rewrite Hlist. cbn [length Nat.eqb].
  destruct (String.eqb_spec inputDir "") as [->|Hin]; cbn [orb].
  { eexists _, _. split_and!; try done. }
  destruct (String.eqb_spec outputDir "") as [->|Hout].
  { eexists _, _. split_and!; try done. }
  destruct (llm.Available (client_of w)) eqn:Hgov; cbn [negb].
  - eexists _, _. split_and!; try done.
    + cbn. rewrite opened_app. cbn. by rewrite (right_id_L [] (++)).
    + cbn. rewrite requested_app. cbn. by rewrite (right_id_L [] (++)).
    + cbn. rewrite created_app. cbn. by rewrite (right_id_L [] (++)).
  - eexists _, _. split_and!; try done.
Qed.

(** C4. When the governor answers the request for an input file with a
    budget-exceeded error, the process exits there with the budget message
    (a gateway error): the file has been read and its request sent, no
    report is created for it, the file store is as it was before the file,
    and no later file is opened. *)
Theorem C4_budget_exceeded_is_fatal
    inputDir outputDir executionRunID w pre jsonFile post w1 data parsed ge :
  let gov := client_of w in
  let req := summarize_request (baseName_of jsonFile) data in
  inputDir ≠ "" → outputDir ≠ "" →
  llm.Available gov = true →
  listing w (filepath.Join [inputDir; "*.json"]) = ok (pre ++ jsonFile :: post)%list →
  for_range pre (process_file gov outputDir)
    (discovered inputDir outputDir (length (pre ++ jsonFile :: post)%list) w)
  = (Returned tt, w1) →
  files w1 !! jsonFile = Some data →
  json_Unmarshal data = ok parsed →
  governor w1 (trace w1 ++ [EvReadFile jsonFile]) gov req = err (GovernorErr ge) →
  IsBudgetExceeded ge = true →
  ∃ w',
    runProcessor inputDir outputDir executionRunID w
    = (Exited (FatalBudgetExceeded (llm.Msg ge)), w') ∧
    classify (FatalBudgetExceeded (llm.Msg ge)) = GatewayError ∧
    trace w' = (trace w1 ++ [EvReadFile jsonFile; EvInvoke gov req])%list ∧
    created (trace w') = created (trace w1) ∧
    opened (trace w') = (opened (trace w1) ++ [jsonFile])%list ∧
    files w' = files w1.
Proof.
  intros gov req Hin Hout Hgov Hlist Hpre Hread Hjson Hanswer Hbudget.
  destruct (process_file_budget gov outputDir jsonFile w1 data parsed ge
              Hread Hjson Hanswer Hbudget) as (w' & Hrun & Htr & Hfiles).
  exists w'. split_and!; try done.
  - by eapply runProcessor_exits_at.
  - rewrite Htr, created_app. cbn. by rewrite (right_id_L [] (++)).
  - by rewrite Htr, opened_app.
Qed.

(** C5. Whatever the path, title and body, the first visible text element of
    the report is the line [Dataset Summary: {title}]: only page set-up comes
    before its cell, and the timestamp line, the separator rule and the body
    are drawn after it, in this order.  The file a successful [generatePDF]
    leaves at the path is this report, drawn for the instant [generatePDF]
    reads and serialized once the file is created. *)
Theorem C5_title_line_first (path title body : string) :
  let title_line := "Dataset Summary: " +:+ title in
  (∀ now,
     head (fpdf.visible_text (report title body now)) = Some title_line ∧
     ∃ setup rest y,
       fpdf.ops (report title body now)
       = (setup ++ fpdf.OpCellFormat 0 12 title_line "" 1 "L" false 0 "" :: rest)%list ∧
       Forall (λ op, fpdf.shown_text op = None) setup ∧
       sublist
         [ fpdf.OpCellFormat 0 5
             ("Generated " +:+ time.Format_minute_UTC now
              +:+ " by Pennsieve LLM Summarizer") "" 1 "L" false 0 "";
           fpdf.OpLine 10 y 200 y;
           fpdf.OpMultiCell 0 6 body "" "L" false ]
         rest) ∧
  (∀ w w',
     generatePDF path title body w = (Returned None, w') →
     files w' !! path
     = Some (fpdf_Output (report title body (clock w (trace w)))
                         (clock w (trace w ++ [EvCreate path])))).
Proof.
  intros title_line. split.
  - intros now. split; [reflexivity|].
    eexists [_; _; _], _, _. split; [reflexivity|]. split.
    + by repeat constructor.
    + repeat first [apply sublist_nil | apply sublist_skip | apply sublist_cons].
  - intros w w'. unfold generatePDF. unfold_effects. cbn.
    destruct (creatable w path); [|done].
    intros [= <-]. cbn. apply lookup_insert_eq.
Qed.

(** C6. Processing one input file sends exactly one governor request when
    the file is read and parsed (and, in the earlier revision, pretty-printed)
    and none otherwise.  The request carries the Haiku model identifier, the
    fixed system instruction, a ceiling of 2048 output tokens and a single
    user message: the document block (named after the file, holding its
    bytes in base64) followed by the fixed instruction text, or, in the
    earlier revision, one text block whose string is the fixed instruction
    text followed by the pretty-printed JSON.  The texts are spelled out
    here as the program has them.  A run that completes has sent one request
    per listed file. *)
Theorem C6_one_request_per_file :
  (∀ gov outputDir jsonFile w,
     ∃ t,
       trace (process_file gov outputDir jsonFile w).2 = (trace w ++ t)%list ∧
       requested t =
       match files w !! jsonFile with
       | Some data =>
           match json_Unmarshal data with
           | ok _ =>
               [ {| llm.Model := ModelHaiku45;
                    llm.System :=
                      "You are a data analyst. Summarize datasets clearly and concisely. Use plain text paragraphs, not markdown.";
                    llm.MaxTokens := 2048;
                    llm.Messages :=
                      [ llm.UserMessage
                          [ llm.DocumentBlock (baseName_of jsonFile) "txt"
                              (base64.EncodeToString data);
                            llm.TextBlock
                              "The attached JSON document represents a dataset. Please provide a comprehensive summary that includes:

1. Overview: What this dataset contains and its purpose
2. Structure: The key fields and their types
3. Content Summary: A description of the data values and any patterns
4. Potential Uses: What this dataset could be used for" ] ] |} ]
           | err _ => []
           end
       | None => []
       end) ∧
  (∀ gov outputDir jsonFile w,
     ∃ t,
       trace (TextPrompt.process_file gov outputDir jsonFile w).2
       = (trace w ++ t)%list ∧
       requested t =
       match files w !! jsonFile with
       | Some data =>
           match json_Unmarshal data with
           | ok parsed =>
               match json_MarshalIndent parsed "" "  " with
               | ok prettyJSON =>
                   [ {| llm.Model := ModelHaiku45;
                        llm.System :=
                          "You are a data analyst. Summarize datasets clearly and concisely. Use plain text paragraphs, not markdown.";
                        llm.MaxTokens := 2048;
                        llm.Messages :=
                          [ llm.UserMessage
                              [ llm.TextBlock
                                  ("The following JSON represents a dataset. Please provide a comprehensive summary that includes:

1. **Overview**: What this dataset contains and its purpose
2. **Structure**: The key fields and their types
3. **Content Summary**: A description of the data values and any patterns
4. **Potential Uses**: What this dataset could be used for

JSON content:
" +:+ prettyJSON) ] ] |} ]
               | err _ => []
               end
           | err _ => []
           end
       | None => []
       end) ∧
  (∀ inputDir outputDir executionRunID w w' jsonFiles,
     listing w (filepath.Join [inputDir; "*.json"]) = ok jsonFiles →
     runProcessor inputDir outputDir executionRunID w = (Returned tt, w') →
     ∃ t, trace w' = (trace w ++ t)%list ∧
          length (requested t) = length jsonFiles).
Proof.
  split_and!.
  - intros gov outputDir jsonFile w. eexists. split; [apply process_file_trace|].
    unfold file_events. cbn.
    destruct (files w !! jsonFile) as [data|]; [|done].
    destruct (json_Unmarshal data); [|done].
    cbn. by destruct (governor w _ gov _).
  - intros gov outputDir jsonFile w. eexists.
    split; [apply TextPrompt_process_file_trace|].
    unfold TextPrompt_file_events. cbn.
    destruct (files w !! jsonFile) as [data|]; [|done].
    destruct (json_Unmarshal data) as [parsed|]; [|done].
    destruct (json_MarshalIndent parsed "" "  "); [|done].
    cbn. by destruct (governor w _ gov _).
  - intros inputDir outputDir executionRunID w w' jsonFiles Hlist Hrun.
    rewrite runProcessor_eq in Hrun. cbn zeta in Hrun.
    destruct (String.eqb inputDir "" || String.eqb outputDir ""); [done|].
    destruct (negb (llm.Available (client_of w))); [done|].
    rewrite Hlist in Hrun.
    destruct (Nat.eqb (length jsonFiles) 0); [done|].
    unfold mbind, M_bind in Hrun.
    destruct (for_range jsonFiles _ _) as [[[]|m] w1] eqn:Hloop; [|done].
    injection Hrun as <-.
    apply for_range_Returned in Hloop as (t & Htr & _ & Hreq & _).
    exists (EvGlob (filepath.Join [inputDir; "*.json"]) :: t). split.
    + cbn in Htr |- *. rewrite Htr. by rewrite <- (assoc_L (++)).
    + done.
Qed.

(** C8. When [generatePDF] has written a report at a path, calling it a
    second time with the same title and body succeeds as well, because
    [os.Create] truncates the file the first call left there.  The path
    then holds the report of the second call: the document spelled out
    below, whose title and body are those given and whose timestamp line
    shows the minute of the second call, as serialized when the file is
    created again.  No other file is changed and none is added.  When the
    two calls read the clock within the same minute they draw the same
    document.  (The bytes written need not be the same: they are those the
    library produces at the instant of writing.) *)
Theorem C8_rendering_twice (path title body : string) (w w1 : World) :
  generatePDF path title body w = (Returned None, w1) →
  let now1 := clock w (trace w) in
  let now2 := clock w1 (trace w1) in
  ∃ w2,
    generatePDF path title body w1 = (Returned None, w2) ∧
    trace w2 = (trace w ++ [EvCreate path; EvCreate path])%list ∧
    files w1 !! path
    = Some (fpdf_Output (report title body now1)
                        (clock w (trace w ++ [EvCreate path]))) ∧
    files w2 !! path
    = Some (fpdf_Output (report title body now2)
                        (clock w (trace w ++ [EvCreate path; EvCreate path]))) ∧
    report title body now2
    = {| fpdf.orientationStr := "P"; fpdf.unitStr := "mm";
         fpdf.sizeStr := "A4"; fpdf.fontDirStr := "";
         fpdf.ops :=
           [ fpdf.OpSetAutoPageBreak true 20;
             fpdf.OpAddPage;
             fpdf.OpSetFont "Helvetica" "B" 18;
             fpdf.OpCellFormat 0 12 ("Dataset Summary: " +:+ title)
               "" 1 "L" false 0 "";
             fpdf.OpLn 4;
             fpdf.OpSetFont "Helvetica" "" 9;
             fpdf.OpSetTextColor 128 128 128;
             fpdf.OpCellFormat 0 5
               ("Generated " +:+ time.Format_minute_UTC now2
                +:+ " by Pennsieve LLM Summarizer") "" 1 "L" false 0 "";
             fpdf.OpLn 6;
             fpdf.OpSetDrawColor 200 200 200;
             fpdf.OpLine 10 (fpdf.CursorAfter 10) 200 (fpdf.CursorAfter 10);
             fpdf.OpLn 6;
             fpdf.OpSetFont "Helvetica" "" 11;
             fpdf.OpSetTextColor 0 0 0;
             fpdf.OpMultiCell 0 6 body "" "L" false ] |} ∧
    (time.Format_minute_UTC now2 = time.Format_minute_UTC now1 →
     report title body now2 = report title body now1) ∧
    dom (files w2) = dom (files w1) ∧
    (∀ name, name ≠ path → files w2 !! name = files w1 !! name).
Proof.
  rewrite generatePDF_eq. cbn zeta.
  destruct (creatable w path) eqn:Hcreate; [|done].
  intros [= <-]. cbn zeta. rewrite generatePDF_eq. cbn zeta.
  set (w1 := with_files _ _).
  assert (creatable w1 path = true) as ->.
  { unfold creatable, w1. cbn. by rewrite lookup_insert_eq. }
  eexists. split; [reflexivity|]. cbn. split_and!.
  - by rewrite <- (assoc_L (++)).
  - apply lookup_insert_eq.
  - rewrite lookup_insert_eq. by rewrite <- (assoc_L (++)).
  - reflexivity.
  - unfold report. by intros ->.
  - by rewrite insert_insert_eq, !dom_insert_L.
  - intros name Hne. by rewrite !lookup_insert_ne.
Qed.

(** C7. [main] reads the marker [AWS_LAMBDA_RUNTIME_API] once: when it is
    set the process serves invocations through [handleLambda], otherwise it
    runs [runProcessor] on [INPUT_DIR], [OUTPUT_DIR] and [EXECUTION_RUN_ID].
    For the same configuration (the event of the one pending invocation
    carries the directories and run identifier that the environment of the
    direct run holds, and the governor function is the same) and the same
    surroundings, the two modes end the same way, leave the same files and
    the same trace of effects, and log the same lines after the line that
    names the mode. *)
Theorem C7_modes_converge :
  (∀ w,
     main w =
     if negb (String.eqb (default "" (env w !! "AWS_LAMBDA_RUNTIME_API")) "")
     then (log_Println LogRunningLambda;; lambda_Start handleLambda) w
     else (log_Println LogRunningECS;;
           runProcessor (default "" (env w !! "INPUT_DIR"))
                        (default "" (env w !! "OUTPUT_DIR"))
                        (default "" (env w !! "EXECUTION_RUN_ID"))) w) ∧
  (∀ wl wd event,
     default "" (env wl !! "AWS_LAMBDA_RUNTIME_API") ≠ "" →
     default "" (env wd !! "AWS_LAMBDA_RUNTIME_API") = "" →
     invocations wl = [event] →
     default "" (env wd !! "INPUT_DIR") = InputDir event →
     default "" (env wd !! "OUTPUT_DIR") = OutputDir event →
     default "" (env wd !! "EXECUTION_RUN_ID") = ExecutionRunID event →
     has_byte zero_byte (ExecutionRunID event) = false →
     default "" (env wl !! "LLM_GOVERNOR_FUNCTION")
     = default "" (env wd !! "LLM_GOVERNOR_FUNCTION") →
     same_surroundings wl wd →
     ∃ r wl' wd' lines,
       main wl = (r, wl') ∧ main wd = (r, wd') ∧
       files wl' = files wd' ∧ trace wl' = trace wd' ∧
       logged wl' = (logged wl ++ inl LogRunningLambda :: lines)%list ∧
       logged wd' = (logged wd ++ inl LogRunningECS :: lines)%list).
Proof.
  split.
  - intros w. unfold main. unfold_effects. cbn.
    by destruct (negb (String.eqb _ "")).
  - intros wl wd event Hml Hmd Hinv Hi Ho Hr Hnul Hfn Hsame.
    set (A := with_env (<["EXECUTION_RUN_ID" := ExecutionRunID event]> (env wl))
                (with_invocations [] (log_line (inl LogRunningLambda) wl))).
    set (B := log_line (inl LogRunningECS) wd).
    assert (alike (logged wl ++ [inl LogRunningLambda])
                  (logged wd ++ [inl LogRunningECS]) A B) as Halike.
    { split; [exact Hsame|]. exists []. by rewrite !(right_id_L [] (++)). }
    assert (client_of A = client_of B) as Hclient.
    { unfold client_of, A, B. cbn.
      rewrite lookup_insert_ne by done. rewrite lookup_insert_eq. cbn.
      by rewrite Hfn, Hr. }
    destruct (runProcessor_alike _ _ (InputDir event) (OutputDir event)
                (ExecutionRunID event) A B Halike Hclient)
      as (Hout & (Hf & _ & _ & _ & _ & Ht) & lines & HlA & HlB).
    destruct (runProcessor _ _ _ A) as [rA wA] eqn:HrunA.
    destruct (runProcessor _ _ _ B) as [rB wB] eqn:HrunB.
    cbn in Hout, Hf, Ht, HlA, HlB. subst rB.
    exists rA, wA, wB, lines. split_and!; try done.
    + unfold main. unfold_effects. cbn.
      apply String.eqb_neq in Hml. rewrite Hml. cbn.
      unfold lambda_Start, next_invocation. cbn. rewrite Hinv. cbn.
      unfold mbind, M_bind. rewrite handleLambda_eq. cbn zeta. rewrite Hnul.
      change (invocations (log_line (inl LogRunningLambda) wl))
        with (invocations wl).
      rewrite Hinv. change (tail [event]) with (@nil LambdaEvent).
      change (env (with_invocations [] (log_line (inl LogRunningLambda) wl)))
        with (env wl).
      fold A. rewrite HrunA. by destruct rA as [[]|m].
    + unfold main. unfold_effects. cbn. rewrite Hmd. cbn.
      rewrite Hi, Ho, Hr. exact HrunB.
    + by rewrite HlA, <- (assoc_L (++)).
    + by rewrite HlB, <- (assoc_L (++)).
Qed.

(** C9. With no governor function in the environment
    ([LLM_GOVERNOR_FUNCTION] unset or empty) every run exits at its guards
    with a configuration error, before input discovery: the trace of effects
    is unchanged (no listing, no read, no request, no report) and so is the
    file store, whatever the input directory holds.  This is so for
    [runProcessor], for the Lambda handler, for the direct [main], and for
    the [main] of the earlier revision. *)
Theorem C9_governor_unset_is_fatal (w : World) :
  default "" (env w !! "LLM_GOVERNOR_FUNCTION") = "" →
  (∀ inputDir outputDir executionRunID,
     ∃ m w',
       runProcessor inputDir outputDir executionRunID w = (Exited m, w') ∧
       classify m = ConfigurationError ∧
       trace w' = trace w ∧ files w' = files w ∧
       (inputDir ≠ "" → outputDir ≠ "" → m = FatalGovernorNotAvailable)) ∧
  (∀ event,
     ∃ m w',
       handleLambda event w = (Exited m, w') ∧
       classify m = ConfigurationError ∧
       trace w' = trace w ∧ files w' = files w) ∧
  (default "" (env w !! "AWS_LAMBDA_RUNTIME_API") = "" →
   ∃ m w',
     main w = (Exited m, w') ∧ classify m = ConfigurationError ∧
     trace w' = trace w ∧ files w' = files w) ∧
  (∃ m w',
     TextPrompt.main w = (Exited m, w') ∧ classify m = ConfigurationError ∧
     trace w' = trace w ∧ files w' = files w).
Proof.
  intros Hunset.
  assert (llm.Available (client_of w) = false) as Hgov.
  { unfold llm.Available, client_of. cbn. by rewrite Hunset. }
  split_and!.
  - intros inputDir outputDir executionRunID.
    by apply runProcessor_unavailable.
  - intros event. rewrite handleLambda_eq. cbn zeta.
    set (w0 := if has_byte _ _ then _ else _).
    assert (llm.Available (client_of w0) = false) as Hgov0.
    { unfold w0. destruct (has_byte _ _); [done|].
      unfold llm.Available, client_of. cbn.
      rewrite lookup_insert_ne by done. by rewrite Hunset. }
    destruct (runProcessor_unavailable (InputDir event) (OutputDir event)
                (ExecutionRunID event) w0 Hgov0)
      as (m & w' & -> & Hclass & Htr & Hfiles & _).
    exists m, w'. split_and!; try done.
    + rewrite Htr. unfold w0. by destruct (has_byte _ _).
    + rewrite Hfiles. unfold w0. by destruct (has_byte _ _).
  - intros Hmarker. unfold main. unfold_effects. cbn. rewrite Hmarker. cbn.
    set (w0 := log_line _ w).
    destruct (runProcessor_unavailable (default "" (env w !! "INPUT_DIR"))
                (default "" (env w !! "OUTPUT_DIR"))
                (default "" (env w !! "EXECUTION_RUN_ID")) w0 Hgov)
      as (m & w' & -> & Hclass & Htr & Hfiles & _).
    by exists m, w'.
  - rewrite TextPrompt_main_eq. cbn zeta. rewrite Hgov. cbn [negb].
    destruct (String.eqb _ "" || String.eqb _ ""); by eexists _, _.
Qed.

(** C10, as amended.  The Lambda handler changes no variable of the process
    environment other than [EXECUTION_RUN_ID], whatever the event.  When the
    run identifier of the event holds no NUL byte, the handler writes it to
    [EXECUTION_RUN_ID] and then runs the pipeline in the updated
    environment, ending the way the pipeline ends.  (An identifier with a NUL byte is refused by [os.Setenv],
    whose result the handler does not look at: the claim without this
    condition fails, see [C10_counterexample].) *)
Theorem C10_handler_sets_run_id (event : LambdaEvent) (w : World) r w' :
  handleLambda event w = (r, w') →
  (∀ key, key ≠ "EXECUTION_RUN_ID" → env w' !! key = env w !! key) ∧
  (has_byte zero_byte (ExecutionRunID event) = false →
   env w' = <["EXECUTION_RUN_ID" := ExecutionRunID event]> (env w) ∧
   ∃ r0,
     runProcessor (InputDir event) (OutputDir event) (ExecutionRunID event)
       (with_env (<["EXECUTION_RUN_ID" := ExecutionRunID event]> (env w)) w)
     = (r0, w') ∧
     r = match r0 with
         | Returned _ => Returned None
         | Exited m => Exited m
         end).
Proof.
  rewrite handleLambda_eq. cbn zeta. intros Hrun.
  destruct (runProcessor _ _ _ _) as [r0 w0] eqn:Hpipeline.
  assert (w0 = w') as -> by (by destruct r0; injection Hrun).
  assert (r = match r0 with
              | Returned _ => Returned None
              | Exited m => Exited m
              end) as Hr by (by destruct r0; injection Hrun).
  apply runProcessor_env in Hpipeline as Henv.
  destruct (has_byte zero_byte (ExecutionRunID event)) eqn:Hnul.
  - split; [by rewrite Henv|done].
  - cbn in Henv. split.
    + intros key Hkey. by rewrite Henv, lookup_insert_ne.
    + intros _. split; [done|]. by exists r0.
Qed.

End Claims.

(** * The properties on the sample worlds *)

Section Witnesses.

#[local] Existing Instance Sample.libs.

(** The sample run writes the two reports, and only them. *)
Lemma C1_witness :
  let w := Sample.world in
  let w' := (runProcessor "in" "out" "test-run-001" w).2 in
  let reports := ["out/patients-summary.pdf"; "out/visits-summary.pdf"] in
  runProcessor "in" "out" "test-run-001" w = (Returned tt, w') ∧
  dom (files w') = dom (files w) ∪ list_to_set reports ∧
  NoDup reports.
Proof.
  intros w w' reports.
  assert (runProcessor "in" "out" "test-run-001" w = (Returned tt, w')) as Hrun
    by (vm_compute; reflexivity).
  destruct (C1_one_report_per_input "in" "out" "test-run-001" w w'
              ["in/patients.json"; "in/visits.json"] eq_refl Hrun)
    as (_ & _ & Hdom & _ & Hnames).
  destruct (Hnames "in" ["patients"; "visits"]) as [_ Hnodup];
    [done | by repeat constructor | compute_done | reflexivity |].
  split_and!; [exact Hrun | exact Hdom | exact Hnodup].
Defined.

(** The sample run with the truncated document listed second exits on it,
    in both revisions. *)
Lemma C2_witness :
  let w := Sample.world_broken in
  ∃ e w' v',
    runProcessor "in" "out" "test-run-001" w
    = (Exited (FatalInvalidJSON "in/broken.json" e), w') ∧
    requested (trace w') = [summarize_request "patients" "{ patients }"] ∧
    opened (trace w') = ["in/patients.json"; "in/broken.json"] ∧
    TextPrompt.main w = (Exited (FatalInvalidJSON "in/broken.json" e), v') ∧
    requested (trace v') = [TextPrompt.summarize_request "{ patients }"] ∧
    opened (trace v') = ["in/patients.json"; "in/broken.json"].
Proof.
  intros w.
  set (n := length ["in/patients.json"; "in/broken.json"; "in/visits.json"]).
  set (w1 := (for_range ["in/patients.json"]
                (process_file (client_of w) "out") (discovered "in" "out" n w)).2).
  set (v1 := (for_range ["in/patients.json"]
                (TextPrompt.process_file (client_of w) "out")
                (discovered "in" "out" n w)).2).
  destruct (proj1 C2_invalid_json_is_fatal "in" "out" "test-run-001" w
              ["in/patients.json"] "in/broken.json" ["in/visits.json"] w1
              "{ a :" (errorString "unexpected end of JSON input"))
    as (w' & Hrun & _ & Htr & Hreq & _);
    [done | done | reflexivity | reflexivity | vm_compute; reflexivity
    | reflexivity | reflexivity |].
  destruct (proj1 (proj2 C2_invalid_json_is_fatal) w
              ["in/patients.json"] "in/broken.json" ["in/visits.json"] v1
              "{ a :" (errorString "unexpected end of JSON input"))
    as (v' & Hrun' & Htr' & Hreq' & _);
    [done | done | reflexivity | reflexivity | vm_compute; reflexivity
    | reflexivity | reflexivity |].
  exists (errorString "unexpected end of JSON input"), w', v'.
  split_and!.
  - exact Hrun.
  - rewrite Hreq. vm_compute. reflexivity.
  - rewrite Htr. vm_compute. reflexivity.
  - exact Hrun'.
  - rewrite Hreq'. vm_compute. reflexivity.
  - rewrite Htr'. vm_compute. reflexivity.
Defined.

(** The sample run with nothing listed exits on the empty listing. *)
Lemma C3_witness :
  ∃ w',
    runProcessor "in" "out" "test-run-001" Sample.world_empty
    = (Exited FatalNoJSONFiles, w') ∧
    files w' = files Sample.world_empty ∧
    trace w' = [EvGlob "in/*.json"].
Proof.
  destruct (C3_empty_listing_is_fatal "in" "out" "test-run-001"
              Sample.world_empty eq_refl)
    as (m & w' & Hrun & Hfiles & _ & _ & _ & Hconfigured).
  destruct Hconfigured as (-> & _ & Htr); [done | done | reflexivity |].
  by exists w'.
Defined.

(** The sample run with a budget of one request exits on the second file. *)
Lemma C4_witness :
  let w := Sample.world_budget in
  ∃ w',
    runProcessor "in" "out" "test-run-001" w
    = (Exited (FatalBudgetExceeded "monthly budget spent"), w') ∧
    created (trace w') = ["out/patients-summary.pdf"] ∧
    files w' !! "out/visits-summary.pdf" = None.
Proof.
  intros w.
  set (n := length ["in/patients.json"; "in/visits.json"]).
  set (w1 := (for_range ["in/patients.json"]
                (process_file (client_of w) "out") (discovered "in" "out" n w)).2).
  destruct (C4_budget_exceeded_is_fatal (H := Sample.libs)
              "in" "out" "test-run-001" w
              ["in/patients.json"] "in/visits.json" [] w1 "[1, 2]"
              ("[1, 2]" : string)
              {| llm.Code := "BUDGET_EXCEEDED"; llm.Msg := "monthly budget spent";
                 llm.AllowedModels := [] |})
    as (w' & Hrun & _ & _ & Hcreated & _ & Hfiles);
    [done | done | reflexivity | reflexivity | vm_compute; reflexivity
    | reflexivity | reflexivity | reflexivity | reflexivity |].
  exists w'. split_and!; [exact Hrun | by rewrite Hcreated | by rewrite Hfiles].
Defined.

(** A report written in the sample world starts with its title line. *)
Lemma C5_witness :
  let w' := (generatePDF "out/patients-summary.pdf" "patients" "Two patients."
               Sample.world).2 in
  head (fpdf.visible_text (report "patients" "Two patients." Sample.noon))
  = Some "Dataset Summary: patients" ∧
  files w' !! "out/patients-summary.pdf"
  = Some (fpdf_Output (report "patients" "Two patients." Sample.noon)
                      (Sample.after_noon [EvCreate "out/patients-summary.pdf"])).
Proof.
  intros w'.
  destruct (C5_title_line_first "out/patients-summary.pdf" "patients"
              "Two patients.") as [Hreport Hfile].
  split.
  - exact (proj1 (Hreport Sample.noon)).
  - apply (Hfile Sample.world w'). vm_compute. reflexivity.
Defined.

(** The sample run sends two requests for its two files. *)
Lemma C6_witness :
  let w := Sample.world in
  let w' := (runProcessor "in" "out" "test-run-001" w).2 in
  ∃ t, trace w' = (trace w ++ t)%list ∧ length (requested t) = 2.
Proof.
  intros w w'.
  apply (proj2 (proj2 C6_one_request_per_file) "in" "out" "test-run-001" w w'
           ["in/patients.json"; "in/visits.json"]).
  - reflexivity.
  - vm_compute. reflexivity.
Defined.

(** The sample run gives the same files and trace as a Lambda invocation and
    as an ECS task. *)
Lemma C7_witness :
  ∃ r wl' wd',
    main Sample.world_lambda = (r, wl') ∧ main Sample.world = (r, wd') ∧
    files wl' = files wd' ∧ trace wl' = trace wd'.
Proof.
  destruct (proj2 C7_modes_converge Sample.world_lambda Sample.world Sample.event)
    as (r & wl' & wd' & lines & Hl & Hd & Hfiles & Htrace & _);
    [done | reflexivity | reflexivity | reflexivity | reflexivity | reflexivity
    | reflexivity | reflexivity | by repeat split |].
  by exists r, wl', wd'.
Defined.

(** Rendering the same report twice in the sample world: the second call
    succeeds and leaves one file, whose bytes are not those of the first
    call (the sample clock has moved on). *)
Lemma C8_witness :
  let path := "out/patients-summary.pdf" in
  let w1 := (generatePDF path "patients" "Two patients." Sample.world).2 in
  ∃ w2,
    generatePDF path "patients" "Two patients." w1 = (Returned None, w2) ∧
    created (trace w2) = [path; path] ∧
    dom (files w2) = dom (files w1) ∧
    files w2 !! path ≠ files w1 !! path.
Proof.
  intros path w1.
  destruct (C8_rendering_twice path "patients" "Two patients." Sample.world w1)
    as (w2 & Hrun & Htrace & Hfirst & Hsecond & _ & _ & Hdom & _);
    [vm_compute; reflexivity|].
  exists w2. split_and!.
  - exact Hrun.
  - by rewrite Htrace.
  - exact Hdom.
  - rewrite Hfirst, Hsecond. vm_compute. discriminate.
Defined.

(** The sample world without its governor function. *)
Lemma C9_witness :
  let w := with_env {[ "INPUT_DIR" := "in"; "OUTPUT_DIR" := "out" ]} Sample.world in
  ∃ w',
    runProcessor "in" "out" "test-run-001" w
    = (Exited FatalGovernorNotAvailable, w') ∧
    trace w' = [] ∧ files w' = files Sample.world.
Proof.
  intros w.
  destruct (proj1 (C9_governor_unset_is_fatal w eq_refl) "in" "out" "test-run-001")
    as (m & w' & Hrun & _ & Htr & Hfiles & Hm).
  rewrite (Hm ltac:(done) ltac:(done)) in Hrun.
  by exists w'.
Defined.

(** The handler on the sample invocation. *)
Lemma C10_witness :
  let w := Sample.world_lambda in
  let w' := (handleLambda Sample.event w).2 in
  env w' = <["EXECUTION_RUN_ID" := "test-run-001"]> (env w) ∧
  env w' !! "AWS_LAMBDA_RUNTIME_API" = Some "127.0.0.1:9001".
Proof.
  intros w w'.
  destruct (C10_handler_sets_run_id Sample.event w (handleLambda Sample.event w).1 w')
    as [Hother Hset]; [by destruct (handleLambda Sample.event w)|].
  split.
  - exact (proj1 (Hset eq_refl)).
  - by rewrite Hother.
Defined.

(** C10 as the specification has it, without a condition on the run
    identifier, fails: on the sample invocation with a NUL byte in its run
    identifier the handler runs the pipeline to its end, sending its
    requests, and [EXECUTION_RUN_ID] is not set to the identifier of the
    event (it stays unset). *)
Lemma C10_counterexample :
  ∃ w',
    handleLambda Sample.event_nul Sample.world_lambda = (Returned None, w') ∧
    length (requested (trace w')) = 2 ∧
    env w' !! "EXECUTION_RUN_ID" = None ∧
    env w' !! "EXECUTION_RUN_ID" ≠ Some (ExecutionRunID Sample.event_nul).
Proof.
  exists (handleLambda Sample.event_nul Sample.world_lambda).2.
  split_and!.
  - vm_compute. reflexivity.
  - vm_compute. reflexivity.
  - vm_compute. reflexivity.
  - vm_compute. discriminate.
Qed.

End Witnesses.

(** * Further properties of the program *)

(** ** The names of the reports *)

Lemma plain_app_inv s t : plain (s +:+ t) → plain s ∧ plain t.
Proof.
  induction s as [|c s IH]; [done|]. rewrite string_app_cons, !plain_cons.
  intros [Hc Hst]. destruct (IH Hst). done.
Qed.

Lemma elements_all_plain path : Forall plain (filepath.elements path).
Proof.
  induction path as [|c rest IH]; [by repeat constructor|].
  cbn [filepath.elements].
  destruct (filepath.IsPathSeparator c) eqn:Hc; [by constructor|].
  destruct (filepath.elements rest) as [|e es].
  - constructor; [by apply plain_cons|constructor].
  - inversion IH; subst. constructor; [|done]. by apply plain_cons.
Qed.

Lemma last_nonempty_Some es e :
  filepath.last_nonempty es = Some e → e ∈ es ∧ e ≠ "".
Proof.
  induction es as [|x es IH]; [done|]. cbn.
  destruct (filepath.last_nonempty es) as [y|].
  - intros [= <-]. destruct (IH eq_refl). split; [by apply elem_of_cons; right|done].
  - destruct (String.eqb_spec x ""); [done|].
    intros [= <-]. split; [by apply elem_of_cons; left|done].
Qed.

(** [filepath.Base] is a single path element, or the root. *)
Lemma Base_plain_or_root path :
  plain (filepath.Base path) ∨ filepath.Base path = "/".
Proof.
  unfold filepath.Base. destruct (String.eqb path ""); [by left|].
  destruct (filepath.last_nonempty _) as [e|] eqn:He; [|by right].
  left. cbn. apply last_nonempty_Some in He as [Hin _].
  pose proof (elements_all_plain path) as Hall.
  rewrite Forall_forall in Hall. by apply Hall.
Qed.

Lemma strip_suffix_Some suffix s p :
  GoStrings.strip_suffix suffix s = Some p → s = p +:+ suffix.
Proof.
  revert p. induction s as [|c s IH]; intros p; cbn [GoStrings.strip_suffix].
  - destruct suffix; cbn; [by intros [= <-]|done].
  - destruct (String.eqb_spec (String c s) suffix) as [<-|_].
    + by intros [= <-].
    + destruct (GoStrings.strip_suffix suffix s) as [q|]; [|done].
      cbn. intros [= <-]. by rewrite string_app_cons, <- (IH q).
Qed.

(** The base name of any listed path is a single path element, or the
    root. *)
Lemma baseName_plain_or_root jsonFile :
  plain (baseName_of jsonFile) ∨ baseName_of jsonFile = "/".
Proof.
  unfold baseName_of, GoStrings.TrimSuffix.
  destruct (GoStrings.strip_suffix _ _) as [p|] eqn:Hp; cbn;
    [|apply Base_plain_or_root].
  apply strip_suffix_Some in Hp.
  destruct (Base_plain_or_root jsonFile) as [Hplain|Hroot].
  - left. rewrite Hp in Hplain. by apply plain_app_inv in Hplain as [? _].
  - rewrite Hroot in Hp. destruct p as [|c p]; [by left|].
    rewrite string_app_cons in Hp. injection Hp as <- Hp.
    destruct p; [by right|done].
Qed.

Lemma Join_child_root dir n :
  dir ≠ "" → real_element n →
  filepath.Join [dir; "/" +:+ n] = child_prefix dir +:+ n.
Proof.
  intros Hd Hn. rewrite <- (Join_child dir n Hd Hn).
  pose proof Hn as (Hp & _).
  unfold filepath.Join. apply String.eqb_neq in Hd as Hd'. rewrite Hd'.
  change (GoStrings.Join [dir; "/" +:+ n] "/")
    with (dir +:+ String filepath.Separator (String filepath.Separator n)).
  change (GoStrings.Join [dir; n] "/") with (dir +:+ String filepath.Separator n).
  unfold filepath.Clean, filepath.clean_elements.
  assert (∀ s, dir +:+ String filepath.Separator s ≠ "") as Hne
    by (by destruct dir).
  pose proof (Hne n) as H1%String.eqb_neq.
  pose proof (Hne (String filepath.Separator n)) as H2%String.eqb_neq.
  rewrite H1, H2, !rooted_app by done.
  rewrite !elements_app_sep. cbn [filepath.elements].
  change (filepath.IsPathSeparator filepath.Separator) with true. cbn iota.
  rewrite !fold_left_app. cbn [fold_left].
  by change (filepath.clean_step (filepath.rooted dir) ?out "") with out.
Qed.

Lemma ext_of_suffix n : ∃ stem, n = stem +:+ filepath.ext_of n.
Proof.
  induction n as [|c n [stem IH]]; [by exists ""|]. cbn [filepath.ext_of].
  destruct (String.eqb_spec (filepath.ext_of n) "") as [He|He].
  - destruct (Ascii.eqb c "."); [by exists ""|].
    exists (String c n). by rewrite string_app_nil_r.
  - exists (String c stem). by rewrite string_app_cons, <- IH.
Qed.

Lemma ext_of_summary x : filepath.ext_of (x +:+ "-summary.pdf") = ".pdf".
Proof.
  induction x as [|c x IH]; [done|].
  rewrite string_app_cons. cbn [filepath.ext_of]. by rewrite IH.
Qed.

(** X1. For the path of a file (a directory prefix followed by a non-empty
    file name), the name the report is derived from and the extension
    recompose the file name: only the last extension is removed, whatever it
    is, and a name without extension is kept whole. *)
Theorem X1_base_name_and_extension (p n : string) :
  (p = "" ∨ ∃ q, p = q +:+ "/") → plain n → n ≠ "" →
  baseName_of (p +:+ n) +:+ filepath.Ext (p +:+ n) = n ∧
  (filepath.Ext (p +:+ n) = "" → baseName_of (p +:+ n) = n).
Proof.
  intros Hp Hn Hne. unfold baseName_of.
  rewrite Base_prefixed, Ext_prefixed by done.
  destruct (ext_of_suffix n) as [stem Hstem].
  assert (GoStrings.TrimSuffix n (filepath.ext_of n) = stem) as ->.
  { rewrite Hstem at 1. apply TrimSuffix_app. }
  split; [done|]. intros He. by rewrite Hstem, He, string_app_nil_r.
Qed.

Lemma pdfPath_of_shape (outputDir jsonFile : string) :
  outputDir ≠ "" →
  ∃ stem,
    plain stem ∧
    pdfPath_of outputDir jsonFile
    = child_prefix outputDir +:+ stem +:+ "-summary.pdf" ∧
    pdfPath_of outputDir jsonFile
    = filepath.Join [outputDir; stem +:+ "-summary.pdf"].
Proof.
  intros Ho. unfold pdfPath_of.
  destruct (baseName_plain_or_root jsonFile) as [Hplain| ->].
  - exists (baseName_of jsonFile). split; [done|].
    by rewrite Join_child by auto using real_element_summary.
  - exists "". split; [done|].
    assert (real_element ("" +:+ "-summary.pdf")) as Hreal
      by by apply real_element_summary.
    change ("/" +:+ "-summary.pdf") with ("/" +:+ ("" +:+ "-summary.pdf")).
    by rewrite (Join_child_root _ _ Ho Hreal), (Join_child _ _ Ho Hreal).
Qed.

(** A report path never ends in [.json]. *)
Lemma pdfPath_of_not_json (outputDir jsonFile p : string) :
  outputDir ≠ "" → pdfPath_of outputDir jsonFile ≠ p +:+ ".json".
Proof.
  intros Ho Heq. destruct (pdfPath_of_shape outputDir jsonFile Ho)
    as (stem & _ & Hshape & _).
  rewrite Hshape, <- string_app_assoc in Heq.
  apply (f_equal filepath.ext_of) in Heq.
  by rewrite ext_of_summary, ext_of_json in Heq.
Qed.

(** X2. Whatever the listed path is, its report is one path element below
    the output directory and ends in [-summary.pdf]: the report path is the
    prefix [filepath.Join] puts in front of every child of the output
    directory, followed by a separator-free stem and the fixed suffix.  No
    listed name makes the report leave the output directory. *)
Theorem X2_report_stays_in_output_directory (outputDir jsonFile : string) :
  outputDir ≠ "" →
  ∃ stem,
    plain stem ∧
    pdfPath_of outputDir jsonFile
    = child_prefix outputDir +:+ stem +:+ "-summary.pdf" ∧
    pdfPath_of outputDir jsonFile
    = filepath.Join [outputDir; stem +:+ "-summary.pdf"].
Proof. apply pdfPath_of_shape. Qed.

(** ** One file, whatever the outcome *)

Section AnyOutcome.

Context `{External}.

Lemma process_file_any gov outputDir jsonFile w :
  let r := (process_file gov outputDir jsonFile w).1 in
  let w' := (process_file gov outputDir jsonFile w).2 in
  same_setting w w' ∧ env w' = env w ∧
  last (logged w')
  = Some match r with
         | Returned _ => inl (LogWritten (pdfPath_of outputDir jsonFile))
         | Exited m => inr m
         end ∧
  (∀ m, r = Exited m →
        classify m ≠ ConfigurationError ∧ classify m ≠ DiscoveryError).
Proof.
  unfold process_file, generatePDF, fatal_invoke_error. unfold_effects. cbn.
  fold (baseName_of jsonFile). fold (pdfPath_of outputDir jsonFile).
  assert (∀ (l : list (LogMsg + Fatal)) x, last (l ++ [x]) = Some x) as Hlast
    by (intros; apply last_snoc).
  destruct (files w !! jsonFile) as [data|];
    [|split_and!; [by repeat split|done|apply Hlast|by intros ? [= <-]]].
  destruct (json_Unmarshal data) as [parsed|?];
    [|split_and!; [by repeat split|done|apply Hlast|by intros ? [= <-]]].
  cbn. destruct (governor w _ gov _) as [resp|e].
  - cbn. create_in w. destruct (creatable w _);
      (split_and!; [by repeat split|done|apply Hlast|by intros ? [= <-]]).
  - destruct (IsGovernorError e) as [ge|];
      [|split_and!; [by repeat split|done|apply Hlast|by intros ? [= <-]]].
    destruct (IsBudgetExceeded ge), (IsModelNotAllowed ge);
      (split_and!; [by repeat split|done|apply Hlast|by intros ? [= <-]]).
Qed.

Lemma process_file_files gov outputDir jsonFile w :
  files (process_file gov outputDir jsonFile w).2 = files w ∨
  ∃ doc, files (process_file gov outputDir jsonFile w).2
         = <[pdfPath_of outputDir jsonFile := doc]> (files w).
Proof.
  destruct (process_file gov outputDir jsonFile w) as [[[]|m] w'] eqn:Hrun.
  - apply process_file_Returned in Hrun
      as (data & parsed & resp & _ & _ & _ & _ & _ & Hfiles & _).
    right. by eexists.
  - left. by eapply process_file_Exited.
Qed.

Lemma file_events_counts gov outputDir jsonFile w :
  let t := file_events gov outputDir jsonFile w in
  opened t = [jsonFile] ∧
  (length (created t) ≤ length (requested t))%nat ∧
  (length (requested t) ≤ 1)%nat ∧
  Forall (λ g, g = gov) (clients t).
Proof.
  unfold file_events.
  destruct (files w !! jsonFile) as [data|]; [|by cbn; auto].
  destruct (json_Unmarshal data); [|by cbn; auto].
  cbn zeta. destruct (governor w _ gov _); cbn; split_and!; auto.
Qed.

Lemma opened_cons_Glob pattern t : opened (EvGlob pattern :: t) = opened t.
Proof. done. Qed.

(** The loop, whatever its outcome. *)
Lemma for_range_any gov outputDir jsonFiles w :
  let w' := (for_range jsonFiles (process_file gov outputDir) w).2 in
  ∃ t,
    trace w' = (trace w ++ t)%list ∧
    (length (created t) ≤ length (requested t))%nat ∧
    (length (requested t) ≤ length (opened t))%nat ∧
    (length (opened t) ≤ length jsonFiles)%nat ∧
    Forall (λ g, g = gov) (clients t) ∧
    same_setting w w' ∧ env w' = env w ∧
    dom (files w) ⊆ dom (files w') ∧
    (∀ name, name ∉ pdfPath_of outputDir <$> jsonFiles →
             files w' !! name = files w !! name).
Proof.
  revert w. induction jsonFiles as [|f fs IH]; intros w.
  - exists []. cbn. rewrite (right_id_L [] (++)).
    split_and!; auto using same_setting_refl.
  - cbn [for_range]. unfold mbind, M_bind.
    pose proof (process_file_trace gov outputDir f w) as Htr.
    pose proof (process_file_any gov outputDir f w) as (Hset & Henv & _ & _).
    pose proof (process_file_files gov outputDir f w) as Hfiles.
    pose proof (file_events_counts gov outputDir f w)
      as (Hop & Hcr & Hreq & Hcl).
    destruct (process_file gov outputDir f w) as [r1 w1]. cbn [fst snd] in *.
    cbn zeta in Hop, Hcr, Hreq, Hcl.
    assert (dom (files w) ⊆ dom (files w1)) as Hdom1.
    { destruct Hfiles as [->|[doc ->]]; [done|].
      rewrite dom_insert_L. apply union_subseteq_r. }
    assert (∀ name, name ≠ pdfPath_of outputDir f →
                    files w1 !! name = files w !! name) as Hframe1.
    { intros name Hne. destruct Hfiles as [->|[doc ->]]; [done|].
      by rewrite lookup_insert_ne. }
    destruct r1 as [[]|m].
    + destruct (IH w1)
        as (t & Htr' & Hcr' & Hreq' & Hop' & Hcl' & Hset' & Henv' & Hdom' & Hfr').
      exists (file_events gov outputDir f w ++ t)%list. split_and!.
      * by rewrite Htr', Htr, (assoc_L (++)).
      * rewrite created_app, requested_app, !length_app. lia.
      * rewrite requested_app, opened_app, !length_app, Hop. cbn [length]. lia.
      * rewrite opened_app, length_app, Hop. cbn [length]. lia.
      * unfold clients in *. rewrite omap_app. by apply Forall_app.
      * by eapply same_setting_trans.
      * congruence.
      * by etrans.
      * intros name Hnot. rewrite fmap_cons, not_elem_of_cons in Hnot.
        destruct Hnot as [Hne Htail]. rewrite (Hfr' _ Htail). by apply Hframe1.
    + exists (file_events gov outputDir f w). split_and!; try done.
      * rewrite Hop. cbn [length]. lia.
      * rewrite Hop. cbn [length]. lia.
      * intros name Hnot. rewrite fmap_cons, not_elem_of_cons in Hnot.
        destruct Hnot as [Hne _]. by apply Hframe1.
Qed.

End AnyOutcome.

(** ** Whole runs *)

Lemma for_range_Exited_inv {A : Type} (xs : list A) (body : A → M unit)
    (w w' : World) (m : Fatal) :
  for_range xs body w = (Exited m, w') →
  ∃ pre x post w1,
    xs = (pre ++ x :: post)%list ∧
    for_range pre body w = (Returned tt, w1) ∧
    body x w1 = (Exited m, w').
Proof.
  revert w. induction xs as [|x xs IH]; intros w; [done|].
  cbn [for_range]. unfold mbind, M_bind.
  destruct (body x w) as [[[]|m1] w1] eqn:Hx.
  - intros (pre & y & post & w2 & -> & Hpre & Hy)%IH.
    exists (x :: pre), y, post, w2. split_and!; [done| |done].
    cbn [for_range]. unfold mbind, M_bind. by rewrite Hx.
  - intros [= <- <-]. by exists [], x, xs, w.
Qed.

Section WholeRuns.

Context `{External}.

(** A run that completes went through its guards, listed at least one file
    and ran its loop to the end. *)
Lemma runProcessor_Returned inputDir outputDir executionRunID w w' :
  runProcessor inputDir outputDir executionRunID w = (Returned tt, w') →
  inputDir ≠ "" ∧ outputDir ≠ "" ∧ llm.Available (client_of w) = true ∧
  ∃ jsonFiles w1,
    listing w (filepath.Join [inputDir; "*.json"]) = ok jsonFiles ∧
    jsonFiles ≠ [] ∧
    for_range jsonFiles (process_file (client_of w) outputDir)
      (discovered inputDir outputDir (length jsonFiles) w) = (Returned tt, w1) ∧
    w' = log_line (inl LogComplete) w1.
Proof.
  rewrite runProcessor_eq. cbn zeta.
  destruct (String.eqb_spec inputDir "") as [|Hin]; [done|].
  destruct (String.eqb_spec outputDir "") as [|Hout]; [done|]. cbn [orb].
  destruct (llm.Available (client_of w)); [|done]. cbn [negb].
  destruct (listing w _) as [jsonFiles|]; [|done].
  destruct jsonFiles as [|f fs]; [done|]. cbn [length Nat.eqb].
  unfold mbind, M_bind.
  destruct (for_range _ _ _) as [[[]|m] w1] eqn:Hloop; [|done].
  intros [= <-]. split_and!; try done. by exists (f :: fs), w1.
Qed.

(** A run that exits does so at a guard, having opened no file, or on a file
    in its loop. *)
Lemma runProcessor_Exited inputDir outputDir executionRunID w m w' :
  runProcessor inputDir outputDir executionRunID w = (Exited m, w') →
  ((classify m = ConfigurationError ∨ classify m = DiscoveryError) ∧
   files w' = files w ∧ last (logged w') = Some (inr m) ∧
   (trace w' = trace w ∨
    trace w' = (trace w ++ [EvGlob (filepath.Join [inputDir; "*.json"])])%list)) ∨
  (inputDir ≠ "" ∧ outputDir ≠ "" ∧ llm.Available (client_of w) = true ∧
   ∃ done jsonFile rest w1,
     listing w (filepath.Join [inputDir; "*.json"])
     = ok (done ++ jsonFile :: rest)%list ∧
     for_range done (process_file (client_of w) outputDir)
       (discovered inputDir outputDir (length (done ++ jsonFile :: rest)%list) w)
     = (Returned tt, w1) ∧
     process_file (client_of w) outputDir jsonFile w1 = (Exited m, w')).
Proof.
  rewrite runProcessor_eq. cbn zeta.
  destruct (String.eqb_spec inputDir "") as [|Hin]; cbn [orb].
  { intros [= <- <-]. left. split_and!; auto. apply last_snoc. }
  destruct (String.eqb_spec outputDir "") as [|Hout].
  { intros [= <- <-]. left. split_and!; auto. apply last_snoc. }
  destruct (llm.Available (client_of w)); cbn [negb];
    [|intros [= <- <-]; left; split_and!; auto; apply last_snoc].
  destruct (listing w _) as [jsonFiles|e];
    [|intros [= <- <-]; left; split_and!; auto; apply last_snoc].
  destruct (Nat.eqb (length jsonFiles) 0);
    [intros [= <- <-]; left; split_and!; auto; apply last_snoc|].
  unfold mbind, M_bind.
  destruct (for_range _ _ _) as [[[]|m1] w1] eqn:Hloop; [done|].
  intros [= <- <-]. right. split_and!; try done.
  apply for_range_Exited_inv in Hloop as (pre & x & post & w2 & -> & Hpre & Hx).
  by exists pre, x, post, w2.
Qed.

(** A run, whatever its outcome. *)
Lemma runProcessor_any inputDir outputDir executionRunID w :
  let w' := (runProcessor inputDir outputDir executionRunID w).2 in
  ∃ t,
    trace w' = (trace w ++ t)%list ∧
    (length (created t) ≤ length (requested t))%nat ∧
    (length (requested t) ≤ length (opened t))%nat ∧
    Forall (λ g, g = client_of w) (clients t) ∧
    same_setting w w' ∧ env w' = env w ∧
    dom (files w) ⊆ dom (files w') ∧
    (∀ name, (∀ jsonFile, name ≠ pdfPath_of outputDir jsonFile) →
             files w' !! name = files w !! name) ∧
    (outputDir = "" → files w' = files w).
Proof.
  rewrite runProcessor_eq. cbn zeta.
  assert (∀ v, trace v = trace w → files v = files w → env v = env w →
               same_setting w v →
               ∃ t, trace v = (trace w ++ t)%list ∧
                 (length (created t) ≤ length (requested t))%nat ∧
                 (length (requested t) ≤ length (opened t))%nat ∧
                 Forall (λ g, g = client_of w) (clients t) ∧
                 same_setting w v ∧ env v = env w ∧
                 dom (files w) ⊆ dom (files v) ∧
                 (∀ name, (∀ jsonFile, name ≠ pdfPath_of outputDir jsonFile) →
                          files v !! name = files w !! name) ∧
                 (outputDir = "" → files v = files w)) as Hquiet.
  { intros v Htr Hf He Hs. exists []. rewrite (right_id_L [] (++)), Hf.
    split_and!; auto. }
  destruct (String.eqb_spec inputDir "") as [|Hin]; cbn [orb].
  { apply Hquiet; by repeat split. }
  destruct (String.eqb_spec outputDir "") as [|Hout].
  { apply Hquiet; by repeat split. }
  destruct (negb (llm.Available (client_of w))).
  { apply Hquiet; by repeat split. }
  assert (∀ v, trace v = (trace w ++ [EvGlob (filepath.Join [inputDir; "*.json"])])%list →
               files v = files w → env v = env w → same_setting w v →
               ∃ t, trace v = (trace w ++ t)%list ∧
                 (length (created t) ≤ length (requested t))%nat ∧
                 (length (requested t) ≤ length (opened t))%nat ∧
                 Forall (λ g, g = client_of w) (clients t) ∧
                 same_setting w v ∧ env v = env w ∧
                 dom (files w) ⊆ dom (files v) ∧
                 (∀ name, (∀ jsonFile, name ≠ pdfPath_of outputDir jsonFile) →
                          files v !! name = files w !! name) ∧
                 (outputDir = "" → files v = files w)) as Hlisted.
  { intros v Htr Hf He Hs. exists [EvGlob (filepath.Join [inputDir; "*.json"])].
    rewrite Hf. split_and!; auto. }
  destruct (listing w _) as [jsonFiles|e]; [|apply Hlisted; by repeat split].
  destruct (Nat.eqb (length jsonFiles) 0); [apply Hlisted; by repeat split|].
  unfold mbind, M_bind.
  destruct (for_range_any (client_of w) outputDir jsonFiles
              (discovered inputDir outputDir (length jsonFiles) w))
    as (t & Htr & Hcr & Hreq & _ & Hcl & Hset & Henv & Hdom & Hframe).
  destruct (for_range jsonFiles _ _) as [r1 w1]. cbn [fst snd] in *.
  assert (trace (if r1 is Returned _ then log_line (inl LogComplete) w1 else w1)
          = trace w1 ∧
          files (if r1 is Returned _ then log_line (inl LogComplete) w1 else w1)
          = files w1 ∧
          env (if r1 is Returned _ then log_line (inl LogComplete) w1 else w1)
          = env w1 ∧
          same_setting w1
            (if r1 is Returned _ then log_line (inl LogComplete) w1 else w1))
    as (Htr' & Hf' & He' & Hs') by (by destruct r1).
  assert ((let (o, w'0) := (r1, w1) in
           match o with
           | Returned _ => log_Println LogComplete w'0
           | Exited m => (Exited m, w'0)
           end).2
          = (if r1 is Returned _ then log_line (inl LogComplete) w1 else w1))
    as -> by (by destruct r1 as [[]|]).
  exists (EvGlob (filepath.Join [inputDir; "*.json"]) :: t).
  rewrite Htr', Hf', He'. split_and!; try done.
  - rewrite Htr. cbn. by rewrite <- (assoc_L (++)).
  - by eapply same_setting_trans.
  - intros name Hname. apply (Hframe name).
    intros (f & -> & _)%list_elem_of_fmap. by apply (Hname f).
Qed.

(** X3. A run never creates a report without having made a request for it,
    and never makes a request without having read a file: at any outcome,
    the reports created are at most as many as the requests sent, and these
    at most as many as the files opened. *)
Theorem X3_no_report_without_request inputDir outputDir executionRunID w :
  ∃ t,
    trace (runProcessor inputDir outputDir executionRunID w).2
    = (trace w ++ t)%list ∧
    (length (created t) ≤ length (requested t))%nat ∧
    (length (requested t) ≤ length (opened t))%nat.
Proof.
  destruct (runProcessor_any inputDir outputDir executionRunID w)
    as (t & Htr & Hcr & Hreq & _). by exists t.
Qed.

(** X4. A run never removes a file and never writes to a file whose name
    ends in [.json]: whatever the outcome, every file of the store is still
    there, and every name that is not a report path (in particular every
    [.json] name, so every input) holds what it held before the run. *)
Theorem X4_inputs_are_never_overwritten inputDir outputDir executionRunID w :
  let w' := (runProcessor inputDir outputDir executionRunID w).2 in
  dom (files w) ⊆ dom (files w') ∧
  (∀ name, (∀ jsonFile, name ≠ pdfPath_of outputDir jsonFile) →
           files w' !! name = files w !! name) ∧
  (∀ p, files w' !! (p +:+ ".json") = files w !! (p +:+ ".json")).
Proof.
  destruct (runProcessor_any inputDir outputDir executionRunID w)
    as (t & _ & _ & _ & _ & _ & _ & Hdom & Hframe & Hempty).
  split_and!; [done|done|]. intros p.
  destruct (String.eqb_spec outputDir "") as [Ho|Ho].
  - by rewrite (Hempty Ho).
  - apply Hframe. intros jsonFile Heq. by eapply pdfPath_of_not_json.
Qed.

(** X5. Files are processed one at a time in the order of the listing, and
    the first failure ends the run: when a run exits on a file, the files
    listed before it have been processed to the end and have their reports,
    the failing file is the last one opened, and no later file is touched. *)
Theorem X5_first_failure_ends_the_run
    inputDir outputDir executionRunID w m w' jsonFiles :
  listing w (filepath.Join [inputDir; "*.json"]) = ok jsonFiles →
  runProcessor inputDir outputDir executionRunID w = (Exited m, w') →
  classify m ≠ ConfigurationError → classify m ≠ DiscoveryError →
  ∃ done jsonFile rest t,
    jsonFiles = (done ++ jsonFile :: rest)%list ∧
    trace w' = (trace w ++ EvGlob (filepath.Join [inputDir; "*.json"]) :: t)%list ∧
    opened t = (done ++ [jsonFile])%list ∧
    dom (files w') = dom (files w) ∪ list_to_set (pdfPath_of outputDir <$> done).
Proof.
  intros Hlist Hrun Hc Hd.
  apply runProcessor_Exited in Hrun as [([?|?] & _)|Hloop]; [done|done|].
  destruct Hloop as (_ & _ & _ & done & f & rest & w1 & Hlist' & Hdone & Hf).
  rewrite Hlist in Hlist'. injection Hlist' as ->.
  apply for_range_Returned in Hdone
    as (t & Htr & Hop & _ & _ & Hdom & _).
  pose proof (process_file_trace (client_of w) outputDir f w1) as Htr'.
  pose proof (file_events_counts (client_of w) outputDir f w1) as (Hop' & _).
  rewrite Hf in Htr'. cbn [snd] in Htr'. cbn zeta in Hop'.
  apply process_file_Exited in Hf as Hfiles.
  exists done, f, rest, (t ++ file_events (client_of w) outputDir f w1)%list.
  split_and!; [done| | |by rewrite Hfiles].
  - rewrite Htr', Htr. cbn. by rewrite <- !(assoc_L (++)).
  - by rewrite opened_app, Hop, Hop'.
Qed.

(** X6. A run exits with a configuration or discovery error exactly when it
    exits without having opened any file: the guards and the listing come
    before every read, and every exit inside the loop follows the read of
    the file it is about. *)
Theorem X6_early_exits_open_nothing inputDir outputDir executionRunID w m w' :
  runProcessor inputDir outputDir executionRunID w = (Exited m, w') →
  ∃ t,
    trace w' = (trace w ++ t)%list ∧
    (opened t = [] ↔
     classify m = ConfigurationError ∨ classify m = DiscoveryError).
Proof.
  intros Hrun.
  apply runProcessor_Exited in Hrun as [(Hclass & _ & _ & Htr)|Hloop].
  - destruct Htr as [Htr|Htr].
    + exists []. by rewrite (right_id_L [] (++)).
    + by eexists [_].
  - destruct Hloop as (_ & _ & _ & done & f & rest & w1 & _ & Hdone & Hf).
    apply for_range_Returned in Hdone as (t & Htr & _).
    pose proof (process_file_trace (client_of w) outputDir f w1) as Htr'.
    pose proof (process_file_any (client_of w) outputDir f w1)
      as (_ & _ & _ & Hclass).
    pose proof (file_events_counts (client_of w) outputDir f w1) as (Hop' & _).
    rewrite Hf in Htr', Hclass. cbn [fst snd] in Htr', Hclass. cbn zeta in Hop'.
    destruct (Hclass m eq_refl) as [Hc Hd].
    exists (EvGlob (filepath.Join [inputDir; "*.json"])
              :: t ++ file_events (client_of w) outputDir f w1)%list.
    split.
    + rewrite Htr', Htr. cbn. by rewrite <- !(assoc_L (++)).
    + rewrite opened_cons_Glob, opened_app, Hop'. split.
      * intros Hnil. by apply app_eq_nil in Hnil as [_ ?].
      * by intros [?|?].
Qed.

(** X7. The last line a run logs tells how it ended: the completion line
    when it returns, the fatal message it exits with otherwise. *)
Theorem X7_last_line_logged inputDir outputDir executionRunID w r w' :
  runProcessor inputDir outputDir executionRunID w = (r, w') →
  last (logged w')
  = Some match r with
         | Returned _ => inl LogComplete
         | Exited m => inr m
         end.
Proof.
  destruct r as [[]|m]; intros Hrun.
  - apply runProcessor_Returned in Hrun as (_ & _ & _ & fs & w1 & _ & _ & _ & ->).
    apply last_snoc.
  - apply runProcessor_Exited in Hrun as [(_ & _ & Hlast & _)|Hloop]; [done|].
    destruct Hloop as (_ & _ & _ & done & f & rest & w1 & _ & _ & Hf).
    pose proof (process_file_any (client_of w) outputDir f w1)
      as (_ & _ & Hlast & _).
    by rewrite Hf in Hlast.
Qed.

(** What a completed run created, from its listing. *)
Lemma runProcessor_Returned_created inputDir outputDir executionRunID w w' :
  runProcessor inputDir outputDir executionRunID w = (Returned tt, w') →
  ∃ jsonFiles t,
    listing w (filepath.Join [inputDir; "*.json"]) = ok jsonFiles ∧
    jsonFiles ≠ [] ∧
    trace w' = (trace w ++ EvGlob (filepath.Join [inputDir; "*.json"]) :: t)%list ∧
    created t = pdfPath_of outputDir <$> jsonFiles ∧
    dom (files w') = dom (files w) ∪ list_to_set (pdfPath_of outputDir <$> jsonFiles) ∧
    same_setting w w'.
Proof.
  intros (_ & _ & _ & fs & w1 & Hlist & Hne & Hloop & ->)%runProcessor_Returned.
  apply for_range_Returned in Hloop
    as (t & Htr & _ & _ & Hcr & Hdom & _ & _ & _ & Hset).
  exists fs, t. split_and!; try done.
  cbn in Htr |- *. rewrite Htr. by rewrite <- (assoc_L (++)).
Qed.

(** X8. Two listed files with the same name in different directories share
    one report: the report name forgets the directory of the input, so a
    run that completes on such a listing creates the same file twice and
    leaves one report for its two inputs. *)
Theorem X8_same_name_one_report
    inputDir outputDir executionRunID w w' dir1 dir2 x :
  dir1 ≠ "" → dir2 ≠ "" → plain x →
  listing w (filepath.Join [inputDir; "*.json"])
  = ok [filepath.Join [dir1; x +:+ ".json"]; filepath.Join [dir2; x +:+ ".json"]] →
  runProcessor inputDir outputDir executionRunID w = (Returned tt, w') →
  let name := filepath.Join [outputDir; x +:+ "-summary.pdf"] in
  ∃ t,
    trace w' = (trace w ++ EvGlob (filepath.Join [inputDir; "*.json"]) :: t)%list ∧
    created t = [name; name] ∧
    dom (files w') = dom (files w) ∪ {[name]}.
Proof.
  intros Hd1 Hd2 Hx Hlist Hrun name.
  apply runProcessor_Returned_created in Hrun
    as (fs & t & Hlist' & _ & Htr & Hcr & Hdom & _).
  rewrite Hlist in Hlist'. injection Hlist' as <-.
  cbn [fmap list_fmap] in Hcr, Hdom. rewrite !pdfPath_of_child in Hcr, Hdom by done.
  exists t. split_and!; [done|done|].
  rewrite Hdom. cbn [list_to_set foldr].
  by rewrite (right_id_L ∅ (∪)), (idemp_L (∪)).
Qed.

(** X9. Running again after a completed run adds no file: a second
    completed run on the same directories creates the same report names, in
    the same order, and the set of files in the store stays what the first
    run left. *)
Theorem X9_second_run_adds_no_file
    inputDir outputDir executionRunID executionRunID' w w1 w2 :
  runProcessor inputDir outputDir executionRunID w = (Returned tt, w1) →
  runProcessor inputDir outputDir executionRunID' w1 = (Returned tt, w2) →
  ∃ t1 t2,
    trace w1 = (trace w ++ t1)%list ∧ trace w2 = (trace w1 ++ t2)%list ∧
    created t2 = created t1 ∧
    dom (files w2) = dom (files w1).
Proof.
  intros (fs & t1 & Hlist & _ & Htr1 & Hcr1 & Hdom1 & Hset)%runProcessor_Returned_created
         (fs' & t2 & Hlist' & _ & Htr2 & Hcr2 & Hdom2 & _)%runProcessor_Returned_created.
  destruct Hset as (_ & Hl & _). rewrite Hl, Hlist in Hlist'.
  injection Hlist' as <-.
  eexists (_ :: t1), (_ :: t2). split_and!; [done|done| |].
  { change (created t2 = created t1). congruence. }
  rewrite Hdom2, Hdom1. by rewrite <- (assoc_L (∪)), (idemp_L (∪)).
Qed.

End WholeRuns.

(** ** The stages of one file *)

Section Stages.

Context `{External}.

(** X10. A file is processed to the end exactly when it can be read, its
    contents parse, the governor answers the request and the report can be
    created; the report then has the base name of the file as its title and
    the text of that answer as its body, and is serialized once its file is
    created. *)
Theorem X10_file_processed_to_the_end gov outputDir jsonFile w :
  let req data := summarize_request (baseName_of jsonFile) data in
  ((∃ w', process_file gov outputDir jsonFile w = (Returned tt, w')) ↔
   (∃ data parsed resp,
      files w !! jsonFile = Some data ∧
      json_Unmarshal data = ok parsed ∧
      governor w (trace w ++ [EvReadFile jsonFile]) gov (req data) = ok resp ∧
      creatable w (pdfPath_of outputDir jsonFile) = true)) ∧
  (∀ w' data resp,
     process_file gov outputDir jsonFile w = (Returned tt, w') →
     files w !! jsonFile = Some data →
     governor w (trace w ++ [EvReadFile jsonFile]) gov (req data) = ok resp →
     files w' !! pdfPath_of outputDir jsonFile
     = Some (fpdf_Output
               (report (baseName_of jsonFile) (llm.Text resp)
                  (clock w (trace w ++ [EvReadFile jsonFile;
                                        EvInvoke gov (req data)])))
               (clock w (trace w ++ [EvReadFile jsonFile;
                                     EvInvoke gov (req data);
                                     EvCreate (pdfPath_of outputDir jsonFile)])))).
Proof.
  intros req. split; [split|].
  - intros [w' Hrun]. apply process_file_Returned in Hrun
      as (data & parsed & resp & ? & ? & ? & ? & _). by exists data, parsed, resp.
  - intros (data & parsed & resp & Hread & Hjson & Hgov & Hcreate).
    eexists. unfold process_file, generatePDF. unfold_effects. cbn.
    fold (baseName_of jsonFile). fold (pdfPath_of outputDir jsonFile).
    rewrite Hread, Hjson. cbn. unfold req in Hgov. rewrite Hgov. cbn.
    create_in w. rewrite Hcreate. reflexivity.
  - intros w' data resp Hrun Hread Hgov.
    apply process_file_Returned in Hrun
      as (data' & parsed & resp' & Hread' & _ & Hgov' & _ & _ & Hfiles & _).
    cbn zeta in Hgov', Hfiles. rewrite Hread in Hread'. injection Hread' as <-.
    unfold req in Hgov. rewrite Hgov in Hgov'. injection Hgov' as <-.
    rewrite Hfiles, lookup_insert_eq. unfold report_for.
    by rewrite <- (assoc_L (++)).
Qed.

(** X11. A listed name that is not a readable file ends the run at the read:
    the process exits with the read error for that name, before any parse or
    request, and nothing is written. *)
Theorem X11_unreadable_file_is_fatal gov outputDir jsonFile w :
  files w !! jsonFile = None →
  ∃ e w',
    process_file gov outputDir jsonFile w = (Exited (FatalReadFile jsonFile e), w') ∧
    classify (FatalReadFile jsonFile e) = ReadError ∧
    trace w' = (trace w ++ [EvReadFile jsonFile])%list ∧
    files w' = files w.
Proof.
  intros Hread. eexists _, _. split.
  - unfold process_file. unfold_effects. cbn. rewrite Hread. reflexivity.
  - done.
Qed.

(** X12. Every failed governor call is fatal and leaves no report.  The
    message depends on the error: a governor error is reported as budget
    exceeded if it is one, else as model not allowed (with the allowed
    models) if it is one, else with its code and message; any other error
    is reported as a failed invocation.  Budget exceeded takes precedence
    over model not allowed. *)
Theorem X12_failed_request_is_fatal gov outputDir jsonFile w data parsed e :
  let req := summarize_request (baseName_of jsonFile) data in
  files w !! jsonFile = Some data →
  json_Unmarshal data = ok parsed →
  governor w (trace w ++ [EvReadFile jsonFile]) gov req = err e →
  ∃ w',
    process_file gov outputDir jsonFile w
    = (Exited match e with
              | GovernorErr ge =>
                  if IsBudgetExceeded ge then FatalBudgetExceeded (llm.Msg ge)
                  else if IsModelNotAllowed ge
                       then FatalModelNotAllowed (llm.AllowedModels ge)
                       else FatalGovernorError (llm.Code ge) (llm.Msg ge)
              | errorString _ => FatalInvokeLLM e
              end, w') ∧
    trace w' = (trace w ++ [EvReadFile jsonFile; EvInvoke gov req])%list ∧
    files w' = files w.
Proof.
  intros req Hread Hjson Hgov. unfold req in *.
  assert (∀ m,
    match IsGovernorError e with
    | Some ge =>
        if IsBudgetExceeded ge then m = FatalBudgetExceeded (llm.Msg ge)
        else if IsModelNotAllowed ge
             then m = FatalModelNotAllowed (llm.AllowedModels ge)
             else m = FatalGovernorError (llm.Code ge) (llm.Msg ge)
    | None => m = FatalInvokeLLM e
    end →
    ∃ w', process_file gov outputDir jsonFile w = (Exited m, w') ∧
          trace w' = (trace w ++ [EvReadFile jsonFile;
                        EvInvoke gov (summarize_request (baseName_of jsonFile) data)])%list ∧
          files w' = files w) as Hstage.
  { intros m Hm. eexists. split.
    - unfold process_file, fatal_invoke_error. unfold_effects. cbn.
      fold (baseName_of jsonFile). rewrite Hread, Hjson. cbn. rewrite Hgov. cbn.
      destruct (IsGovernorError e) as [ge|]; [|by rewrite Hm].
      destruct (IsBudgetExceeded ge); [by rewrite Hm|].
      destruct (IsModelNotAllowed ge); by rewrite Hm.
    - cbn. by rewrite <- !(assoc_L (++)). }
  apply Hstage. destruct e as [ge|msg]; cbn; [|done].
  destruct (IsBudgetExceeded ge); [done|]. by destruct (IsModelNotAllowed ge).
Qed.

(** X13. When the report cannot be created the run exits with the render
    error after the request has been answered: the request is spent, and no
    file is left at the report path. *)
Theorem X13_unwritable_report_is_fatal gov outputDir jsonFile w data parsed resp :
  let req := summarize_request (baseName_of jsonFile) data in
  let name := pdfPath_of outputDir jsonFile in
  files w !! jsonFile = Some data →
  json_Unmarshal data = ok parsed →
  governor w (trace w ++ [EvReadFile jsonFile]) gov req = ok resp →
  creatable w name = false →
  ∃ e w',
    process_file gov outputDir jsonFile w = (Exited (FatalGeneratePDF e), w') ∧
    classify (FatalGeneratePDF e) = RenderError ∧
    trace w' = (trace w ++ [EvReadFile jsonFile; EvInvoke gov req; EvCreate name])%list ∧
    files w' = files w.
Proof.
  intros req name Hread Hjson Hgov Hcreate. eexists _, _. split.
  - unfold process_file, generatePDF. unfold_effects. cbn.
    fold (baseName_of jsonFile). fold (pdfPath_of outputDir jsonFile).
    rewrite Hread, Hjson. cbn. unfold req in Hgov. rewrite Hgov. cbn.
    unfold name in Hcreate. create_in w. rewrite Hcreate. reflexivity.
  - cbn. by rewrite <- !(assoc_L (++)).
Qed.

(** X15. Whatever way the library breaks lines, the page of a report shows
    the title line, then the timestamp line, then the lines the body is
    broken into (those that are not empty), and no other text; the two
    header lines are drawn whole, and nothing is drawn for an empty
    summary. *)
Theorem X15_report_text (title body : string) (now : time.Time) :
  ∃ header,
    fpdf.ops (report title body now)
    = (header ++ [fpdf.OpMultiCell 0 6 body "" "L" false])%list ∧
    fpdf.visible_text (report title body now)
    = ("Dataset Summary: " +:+ title)
      :: ("Generated " +:+ time.Format_minute_UTC now
          +:+ " by Pennsieve LLM Summarizer")
      :: (if String.eqb body "" then []
          else List.filter (λ line, negb (String.eqb line ""))
                 (fpdf.break_lines header 0 body)).
Proof.
  exists (take 14 (fpdf.ops (report title body now))). split; [reflexivity|].
  unfold fpdf.visible_text, report. cbn.
  destruct (String.eqb body ""); [done|].
  by rewrite (right_id_L [] (++)).
Qed.

End Stages.

(** ** The two entry points *)

Section EntryPoints.

Context `{External}.

Lemma handleLambda_snd event w :
  (handleLambda event w).2 =
  (runProcessor (InputDir event) (OutputDir event) (ExecutionRunID event)
     (if has_byte zero_byte (ExecutionRunID event) then w
      else with_env (<["EXECUTION_RUN_ID" := ExecutionRunID event]> (env w)) w)).2.
Proof.
  rewrite handleLambda_eq. cbn zeta.
  by destruct (runProcessor _ _ _ _) as [[[]|m] w'].
Qed.

(** X16. A run without an input or an output directory stops at its first
    guard, whether or not a governor function is set: the direct [main]
    with [INPUT_DIR] or [OUTPUT_DIR] missing or empty, the [main] of the
    earlier revision, and the handler on an event without one of the two
    directories all exit asking for the directories, with no effect on the
    surroundings. *)
Theorem X16_missing_directory_is_fatal (w : World) :
  (default "" (env w !! "INPUT_DIR") = "" ∨ default "" (env w !! "OUTPUT_DIR") = "" →
   (default "" (env w !! "AWS_LAMBDA_RUNTIME_API") = "" →
    ∃ w', main w = (Exited FatalDirsRequired, w') ∧
          trace w' = trace w ∧ files w' = files w) ∧
   (∃ w', TextPrompt.main w = (Exited FatalDirsRequired, w') ∧
          trace w' = trace w ∧ files w' = files w)) ∧
  (∀ event,
     InputDir event = "" ∨ OutputDir event = "" →
     ∃ w', handleLambda event w = (Exited FatalDirsRequired, w') ∧
           trace w' = trace w ∧ files w' = files w).
Proof.
  assert (∀ a b : string, a = "" ∨ b = "" → String.eqb a "" || String.eqb b "" = true)
    as Hguard.
  { intros a b [-> | ->]; [done|]. by rewrite orb_true_r. }
  split.
  - intros Hmissing%Hguard. split.
    + intros Hmarker. unfold main. unfold_effects. cbn. rewrite Hmarker. cbn.
      rewrite runProcessor_eq. cbn zeta. rewrite Hmissing. by eexists.
    + rewrite TextPrompt_main_eq. cbn zeta. rewrite Hmissing. by eexists.
  - intros event Hmissing%Hguard. rewrite handleLambda_eq. cbn zeta.
    rewrite runProcessor_eq. cbn zeta. rewrite Hmissing.
    eexists. split; [done|]. by destruct (has_byte _ _).
Qed.

(** X17. The handler never reports a failure to the Lambda runtime: when it
    returns, it returns [nil], and the pipeline has completed (every listed
    file has its report and the completion line is logged).  Every failure
    ends the process instead. *)
Theorem X17_handler_returns_only_nil event w e w' :
  handleLambda event w = (Returned e, w') →
  e = None ∧
  ∃ jsonFiles t,
    listing w (filepath.Join [InputDir event; "*.json"]) = ok jsonFiles ∧
    jsonFiles ≠ [] ∧
    trace w' = (trace w ++ EvGlob (filepath.Join [InputDir event; "*.json"]) :: t)%list ∧
    created t = pdfPath_of (OutputDir event) <$> jsonFiles ∧
    last (logged w') = Some (inl LogComplete).
Proof.
  rewrite handleLambda_eq. cbn zeta.
  set (w0 := if has_byte _ _ then _ else _).
  assert (listing w0 = listing w ∧ trace w0 = trace w) as [Hl Ht]
    by (unfold w0; by destruct (has_byte _ _)).
  destruct (runProcessor _ _ _ w0) as [[[]|m] w1] eqn:Hrun; [|done].
  intros [= <- <-]. split; [done|].
  pose proof Hrun as (_ & _ & _ & _ & w2 & _ & _ & _ & ->)%runProcessor_Returned.
  apply runProcessor_Returned_created in Hrun
    as (fs & t & Hlist & Hne & Htr & Hcr & _).
  exists fs, t. rewrite <- Hl, <- Ht. split_and!; try done. apply last_snoc.
Qed.

(** X18. The requests of a run are all sent through the client made when
    the run starts, from the environment: the run identifier handed to
    [runProcessor] plays no part.  In the handler, the write to
    [EXECUTION_RUN_ID] is what makes the requests of an invocation carry the
    run identifier of its event. *)
Theorem X18_requests_carry_the_run_identifier :
  (∀ inputDir outputDir executionRunID w,
     ∃ t,
       trace (runProcessor inputDir outputDir executionRunID w).2
       = (trace w ++ t)%list ∧
       Forall (λ gov, gov = client_of w) (clients t)) ∧
  (∀ event w,
     has_byte zero_byte (ExecutionRunID event) = false →
     ∃ t,
       trace (handleLambda event w).2 = (trace w ++ t)%list ∧
       Forall (λ gov, llm.executionRunID gov = ExecutionRunID event ∧
                      llm.functionName gov
                      = default "" (env w !! "LLM_GOVERNOR_FUNCTION"))
              (clients t)).
Proof.
  split.
  - intros inputDir outputDir executionRunID w.
    destruct (runProcessor_any inputDir outputDir executionRunID w)
      as (t & Htr & _ & _ & Hcl & _). by exists t.
  - intros event w Hnul. rewrite handleLambda_snd, Hnul.
    set (w0 := with_env _ w).
    destruct (runProcessor_any (InputDir event) (OutputDir event)
                (ExecutionRunID event) w0) as (t & Htr & _ & _ & Hcl & _).
    exists t. split; [done|].
    eapply Forall_impl; [exact Hcl|]. intros gov ->.
    unfold client_of, w0. cbn.
    by rewrite lookup_insert_eq, lookup_insert_ne.
Qed.

(** X19. The handler does not look at what [os.Setenv] returns.  For a run
    identifier that [os.Setenv] refuses (one holding a NUL byte) the
    pipeline still runs, in the world as the handler found it: the handler
    ends the way [runProcessor] ends there and leaves the world
    [runProcessor] leaves.  The environment is unchanged, and the requests
    of the invocation carry the run identifier the environment held before,
    not the one of the event. *)
Theorem X19_refused_run_identifier_is_ignored event w :
  has_byte zero_byte (ExecutionRunID event) = true →
  handleLambda event w
  = (match runProcessor (InputDir event) (OutputDir event)
             (ExecutionRunID event) w with
     | (Returned _, w') => (Returned None, w')
     | (Exited m, w') => (Exited m, w')
     end) ∧
  env (handleLambda event w).2 = env w ∧
  ∃ t,
    trace (handleLambda event w).2 = (trace w ++ t)%list ∧
    Forall (λ gov, llm.executionRunID gov
                   = default "" (env w !! "EXECUTION_RUN_ID"))
           (clients t).
Proof.
  intros Hnul. split.
  { rewrite handleLambda_eq. cbn zeta. by rewrite Hnul. }
  rewrite handleLambda_snd, Hnul.
  destruct (runProcessor_any (InputDir event) (OutputDir event)
              (ExecutionRunID event) w) as (t & Htr & _ & _ & Hcl & _ & Henv & _).
  split; [done|]. exists t. split; [done|].
  eapply Forall_impl; [exact Hcl|]. by intros gov ->.
Qed.

(** X20. In the Lambda runtime a failing invocation ends the process: when
    the pipeline of the first pending invocation exits, so does [main], with
    the same message, and the invocations pending after it are not
    delivered. *)
Theorem X20_failing_invocation_ends_the_process w event rest m w' :
  default "" (env w !! "AWS_LAMBDA_RUNTIME_API") ≠ "" →
  invocations w = event :: rest →
  handleLambda event (with_invocations rest (log_line (inl LogRunningLambda) w))
  = (Exited m, w') →
  main w = (Exited m, w') ∧ invocations w' = rest.
Proof.
  intros Hmarker%String.eqb_neq Hinv Hrun. split.
  - unfold main. unfold_effects. cbn. rewrite Hmarker. cbn.
    unfold lambda_Start, next_invocation. cbn. rewrite Hinv. cbn.
    unfold mbind, M_bind.
    change (invocations (log_line (inl LogRunningLambda) w)) with (invocations w).
    rewrite Hinv. cbn [tail]. by rewrite Hrun.
  - pose proof (handleLambda_snd event
                  (with_invocations rest (log_line (inl LogRunningLambda) w)))
      as Hsnd.
    rewrite Hrun in Hsnd. cbn [snd] in Hsnd. rewrite Hsnd.
    set (w0 := if has_byte _ _ then _ else _).
    destruct (runProcessor_any (InputDir event) (OutputDir event)
                (ExecutionRunID event) w0)
      as (t & _ & _ & _ & _ & (_ & _ & _ & _ & Hinv') & _).
    rewrite Hinv'. unfold w0. by destruct (has_byte _ _).
Qed.

End EntryPoints.

(** ** The earlier revision, run to its end *)

(** A loop whose turns are [file_done] when they return. *)
Lemma for_range_done (body : string → M unit) outputDir jsonFiles w w' :
  (∀ f v v', body f v = (Returned tt, v') → file_done outputDir f v v') →
  for_range jsonFiles body w = (Returned tt, w') →
  ∃ t,
    trace w' = (trace w ++ t)%list ∧
    opened t = jsonFiles ∧
    length (requested t) = length jsonFiles ∧
    created t = pdfPath_of outputDir <$> jsonFiles ∧
    dom (files w') = dom (files w) ∪ list_to_set (pdfPath_of outputDir <$> jsonFiles) ∧
    env w' = env w ∧ same_setting w w'.
Proof.
  intros Hbody. revert w. induction jsonFiles as [|f fs IH]; intros w.
  - intros [= <-]. exists []. rewrite (right_id_L [] (++)). cbn.
    split_and!; try done; by rewrite (right_id_L ∅ (∪)).
  - cbn [for_range]. unfold mbind, M_bind.
    destruct (body f w) as [[[]|m] w1] eqn:Hf; [|done].
    intros Hrest. apply Hbody in Hf
      as (gov & req & doc & Htr & Hfiles & Henv & Hset).
    destruct (IH _ Hrest) as (t & Htr' & Hop & Hreq & Hcr & Hdom & Henv' & Hset').
    eexists (_ :: _ :: _ :: t). split_and!.
    + rewrite Htr', Htr. by rewrite <- !(assoc_L (++)).
    + cbn. by rewrite <- Hop.
    + cbn. by rewrite <- Hreq.
    + cbn. by rewrite <- Hcr.
    + rewrite Hdom, Hfiles, dom_insert_L. cbn.
      by rewrite (comm_L (∪) {[_]} (dom _)), <- (assoc_L (∪)).
    + congruence.
    + by eapply same_setting_trans.
Qed.

Section EarlierRevision.

Context `{External}.

Lemma TextPrompt_process_file_Returned gov outputDir jsonFile w w' :
  TextPrompt.process_file gov outputDir jsonFile w = (Returned tt, w') →
  file_done outputDir jsonFile w w'.
Proof.
  unfold TextPrompt.process_file, TextPrompt.generatePDF, fatal_invoke_error,
    file_done.
  unfold_effects. cbn.
  fold (baseName_of jsonFile). fold (pdfPath_of outputDir jsonFile).
  destruct (files w !! jsonFile) as [data|]; [|done].
  destruct (json_Unmarshal data) as [parsed|?]; [|done].
  destruct (json_MarshalIndent parsed "" "  ") as [prettyJSON|?]; [|done].
  cbn. destruct (governor w _ gov _) as [resp|e].
  - cbn. create_in w. destruct (creatable w _); [|done].
    intros [= <-]. eexists _, _, _. cbn.
    rewrite <- !(assoc_L (++)). by repeat split.
  - destruct (IsGovernorError e) as [ge|]; [|done].
    by destruct (IsBudgetExceeded ge), (IsModelNotAllowed ge).
Qed.

(** X21. The earlier revision names and counts its reports the same way: a
    run of its [main] that completes has listed at least one file in
    [INPUT_DIR], has read every listed file in the order of the listing,
    sent one request per file, and created one report per file at the path
    [runProcessor] would use, in [OUTPUT_DIR]; nothing else is added to the
    file store. *)
Theorem X21_earlier_revision_one_report_per_input w w' :
  TextPrompt.main w = (Returned tt, w') →
  let inputDir := default "" (env w !! "INPUT_DIR") in
  let outputDir := default "" (env w !! "OUTPUT_DIR") in
  ∃ jsonFiles t,
    listing w (filepath.Join [inputDir; "*.json"]) = ok jsonFiles ∧
    jsonFiles ≠ [] ∧
    trace w' = (trace w ++ EvGlob (filepath.Join [inputDir; "*.json"]) :: t)%list ∧
    opened t = jsonFiles ∧
    length (requested t) = length jsonFiles ∧
    created t = pdfPath_of outputDir <$> jsonFiles ∧
    dom (files w') = dom (files w) ∪ list_to_set (pdfPath_of outputDir <$> jsonFiles).
Proof.
  rewrite TextPrompt_main_eq. cbn zeta.
  destruct (String.eqb _ "" || String.eqb _ ""); [done|].
  destruct (negb (llm.Available (client_of w))); [done|].
  destruct (listing w _) as [jsonFiles|]; [|done].
  destruct jsonFiles as [|f fs]; [done|]. cbn [length Nat.eqb].
  unfold mbind, M_bind.
  destruct (for_range _ _ _) as [[[]|m] w1] eqn:Hloop; [|done].
  intros [= <-].
  eapply for_range_done in Hloop
    as (t & Htr & Hop & Hreq & Hcr & Hdom & _);
    [|intros ???; apply TextPrompt_process_file_Returned].
  exists (f :: fs), t. split_and!; try done.
  cbn in Htr |- *. rewrite Htr. by rewrite <- (assoc_L (++)).
Qed.

(** X22. In the earlier revision a parsed document that cannot be
    pretty-printed ends the run before the governor is called: the process
    exits with the formatting error, the read being the only effect on the
    file. *)
Theorem X22_unformattable_document_is_fatal
    gov outputDir jsonFile w data parsed e :
  files w !! jsonFile = Some data →
  json_Unmarshal data = ok parsed →
  json_MarshalIndent parsed "" "  " = err e →
  ∃ w',
    TextPrompt.process_file gov outputDir jsonFile w
    = (Exited (FatalFormatJSON e), w') ∧
    trace w' = (trace w ++ [EvReadFile jsonFile])%list ∧
    files w' = files w.
Proof.
  intros Hread Hjson Hpretty. eexists. split.
  - unfold TextPrompt.process_file. unfold_effects. cbn.
    rewrite Hread, Hjson, Hpretty. reflexivity.
  - done.
Qed.

End EarlierRevision.

(** ** The further properties on the sample worlds *)

Section FurtherWitnesses.

#[local] Existing Instance Sample.libs.

Lemma X1_witness :
  baseName_of "in/a.b.json" +:+ filepath.Ext "in/a.b.json" = "a.b.json" ∧
  baseName_of "in/README" = "README".
Proof.
  split.
  - apply (X1_base_name_and_extension "in/" "a.b.json");
      [right; by exists "in" | done | done].
  - apply (X1_base_name_and_extension "in/" "README");
      [right; by exists "in" | done | done | reflexivity].
Defined.

Lemma X2_witness :
  ∃ stem, plain stem ∧
          pdfPath_of "out/./reports/" "in/../x.json"
          = child_prefix "out/./reports/" +:+ stem +:+ "-summary.pdf" ∧
          pdfPath_of "out/./reports/" "in/../x.json"
          = filepath.Join ["out/./reports/"; stem +:+ "-summary.pdf"].
Proof. by apply X2_report_stays_in_output_directory. Defined.

Lemma X4_witness :
  let w' := (runProcessor "in" "out" "test-run-001" Sample.world).2 in
  files w' !! "in/patients.json" = Some "{ patients }" ∧
  dom (files Sample.world) ⊆ dom (files w').
Proof.
  intros w'.
  destruct (X4_inputs_are_never_overwritten "in" "out" "test-run-001" Sample.world)
    as (Hdom & _ & Hjson).
  split; [|exact Hdom].
  exact (Hjson "in/patients").
Defined.

Lemma X5_witness :
  let w := Sample.world_broken in
  let w' := (runProcessor "in" "out" "test-run-001" w).2 in
  ∃ done jsonFile rest t,
    ["in/patients.json"; "in/broken.json"; "in/visits.json"]
    = (done ++ jsonFile :: rest)%list ∧
    trace w' = (trace w ++ EvGlob (filepath.Join ["in"; "*.json"]) :: t)%list ∧
    opened t = (done ++ [jsonFile])%list ∧
    dom (files w') = dom (files w) ∪ list_to_set (pdfPath_of "out" <$> done).
Proof.
  intros w w'.
  apply (X5_first_failure_ends_the_run "in" "out" "test-run-001" w
           (FatalInvalidJSON "in/broken.json"
              (errorString "unexpected end of JSON input")) w');
    [reflexivity | vm_compute; reflexivity | done | done].
Defined.

Lemma X6_witness :
  let w := Sample.world_empty in
  let w' := (runProcessor "in" "out" "test-run-001" w).2 in
  ∃ t, trace w' = (trace w ++ t)%list ∧ opened t = [].
Proof.
  intros w w'.
  destruct (X6_early_exits_open_nothing "in" "out" "test-run-001" w
              FatalNoJSONFiles w') as (t & Htr & Hopened);
    [vm_compute; reflexivity|].
  exists t. split; [exact Htr|]. apply Hopened. by right.
Defined.

Lemma X7_witness :
  let w' := (runProcessor "in" "out" "test-run-001" Sample.world_broken).2 in
  last (logged w')
  = Some (inr (FatalInvalidJSON "in/broken.json"
                 (errorString "unexpected end of JSON input"))).
Proof.
  intros w'.
  apply (X7_last_line_logged "in" "out" "test-run-001" Sample.world_broken
           (Exited (FatalInvalidJSON "in/broken.json"
                      (errorString "unexpected end of JSON input"))) w').
  vm_compute. reflexivity.
Defined.

Lemma X8_witness :
  let w := Sample.world_two_dirs in
  let w' := (runProcessor "in*" "out" "test-run-001" w).2 in
  ∃ t,
    trace w' = (trace w ++ EvGlob (filepath.Join ["in*"; "*.json"]) :: t)%list ∧
    created t = ["out/patients-summary.pdf"; "out/patients-summary.pdf"] ∧
    dom (files w') = dom (files w) ∪ {["out/patients-summary.pdf"]}.
Proof.
  intros w w'.
  apply (X8_same_name_one_report "in*" "out" "test-run-001" w w'
           "in1" "in2" "patients");
    [done | done | done | reflexivity | vm_compute; reflexivity].
Defined.

Lemma X9_witness :
  let w1 := (runProcessor "in" "out" "test-run-001" Sample.world).2 in
  let w2 := (runProcessor "in" "out" "test-run-002" w1).2 in
  dom (files w2) = dom (files w1).
Proof.
  intros w1 w2.
  destruct (X9_second_run_adds_no_file "in" "out" "test-run-001" "test-run-002"
              Sample.world w1 w2) as (t1 & t2 & _ & _ & _ & Hdom);
    [vm_compute; reflexivity | vm_compute; reflexivity | exact Hdom].
Defined.

Lemma X10_witness :
  ∃ w', process_file (client_of Sample.world) "out" "in/patients.json" Sample.world
        = (Returned tt, w').
Proof.
  apply (proj1 (X10_file_processed_to_the_end (client_of Sample.world) "out"
                  "in/patients.json" Sample.world)).
  exists "{ patients }", ("{ patients }" : string),
    (Sample.answer "This dataset contains patient records.").
  by split_and!.
Defined.

Lemma X11_witness :
  let w := Sample.world_gone in
  ∃ e w',
    process_file (client_of w) "out" "in/gone.json" w
    = (Exited (FatalReadFile "in/gone.json" e), w') ∧
    files w' = files w.
Proof.
  intros w.
  destruct (X11_unreadable_file_is_fatal (client_of w) "out" "in/gone.json" w)
    as (e & w' & Hrun & _ & _ & Hfiles); [reflexivity|].
  by exists e, w'.
Defined.

Lemma X12_witness :
  let w := Sample.world_no_budget in
  ∃ w',
    process_file (client_of w) "out" "in/patients.json" w
    = (Exited (FatalBudgetExceeded "monthly budget spent"), w') ∧
    files w' = files w.
Proof.
  intros w.
  destruct (X12_failed_request_is_fatal (H := Sample.libs) (client_of w) "out"
              "in/patients.json" w "{ patients }" ("{ patients }" : string)
              Sample.over_budget)
    as (w' & Hrun & _ & Hfiles); [reflexivity | reflexivity | reflexivity |].
  by exists w'.
Defined.

Lemma X13_witness :
  let w := Sample.world_readonly in
  ∃ e w',
    process_file (client_of w) "out" "in/patients.json" w
    = (Exited (FatalGeneratePDF e), w') ∧
    created (trace w') = ["out/patients-summary.pdf"] ∧
    files w' = files w.
Proof.
  intros w.
  destruct (X13_unwritable_report_is_fatal (H := Sample.libs) (client_of w) "out"
              "in/patients.json" w "{ patients }" ("{ patients }" : string)
              (Sample.answer "This dataset contains patient records."))
    as (e & w' & Hrun & _ & Htr & Hfiles);
    [reflexivity | reflexivity | reflexivity | reflexivity |].
  exists e, w'. split_and!; [exact Hrun | by rewrite Htr | exact Hfiles].
Defined.

(** A summary of two lines is drawn as two text elements. *)
Lemma X15_witness :
  fpdf.visible_text
    (report "patients" ("Two patients." +:+ String Sample.line_feed "One visit.")
       Sample.noon)
  = [ "Dataset Summary: patients";
      "Generated 2026-03-09 12:00 UTC by Pennsieve LLM Summarizer";
      "Two patients."; "One visit." ].
Proof.
  destruct (X15_report_text "patients"
              ("Two patients." +:+ String Sample.line_feed "One visit.")
              Sample.noon) as (header & _ & ->).
  reflexivity.
Defined.

Lemma X16_witness :
  let w := with_env {[ "OUTPUT_DIR" := "out" ]} Sample.world in
  ∃ w', main w = (Exited FatalDirsRequired, w') ∧ trace w' = trace w.
Proof.
  intros w.
  destruct (proj1 (proj1 (X16_missing_directory_is_fatal w) (or_introl eq_refl))
              eq_refl) as (w' & Hrun & Htr & _).
  by exists w'.
Defined.

Lemma X17_witness :
  let w := Sample.world_lambda in
  let w' := (handleLambda Sample.event w).2 in
  last (logged w') = Some (inl LogComplete).
Proof.
  intros w w'.
  destruct (X17_handler_returns_only_nil Sample.event w None w')
    as (_ & fs & t & _ & _ & _ & _ & Hlast); [vm_compute; reflexivity|].
  exact Hlast.
Defined.

Lemma X18_witness :
  ∃ t,
    trace (handleLambda Sample.event Sample.world_lambda).2
    = (trace Sample.world_lambda ++ t)%list ∧
    Forall (λ gov, llm.executionRunID gov = "test-run-001") (clients t).
Proof.
  destruct (proj2 X18_requests_carry_the_run_identifier Sample.event
              Sample.world_lambda eq_refl) as (t & Htr & Hcl).
  exists t. split; [exact Htr|].
  eapply Forall_impl; [exact Hcl|]. by intros gov [? _].
Defined.

(** The handler on an invocation whose run identifier holds a NUL byte: the
    two reports are written all the same. *)
Lemma X19_witness :
  let w' := (handleLambda Sample.event_nul Sample.world_lambda).2 in
  handleLambda Sample.event_nul Sample.world_lambda = (Returned None, w') ∧
  created (trace w') = ["out/patients-summary.pdf"; "out/visits-summary.pdf"] ∧
  env w' = env Sample.world_lambda.
Proof.
  intros w'.
  destruct (X19_refused_run_identifier_is_ignored Sample.event_nul
              Sample.world_lambda eq_refl) as (Hrun & Henv & _).
  split_and!.
  - rewrite Hrun. vm_compute. reflexivity.
  - vm_compute. reflexivity.
  - exact Henv.
Defined.

Lemma X20_witness :
  ∃ w', main Sample.world_lambda_two = (Exited FatalDirsRequired, w') ∧
        invocations w' = [Sample.event].
Proof.
  set (w0 := with_invocations [Sample.event]
               (log_line (inl LogRunningLambda) Sample.world_lambda_two)).
  destruct (X20_failing_invocation_ends_the_process Sample.world_lambda_two
              Sample.event_no_dir [Sample.event] FatalDirsRequired
              (handleLambda Sample.event_no_dir w0).2)
    as [Hrun Hinv]; [done | reflexivity | vm_compute; reflexivity |].
  by eexists.
Defined.

Lemma X21_witness :
  let w := Sample.world in
  let w' := (TextPrompt.main w).2 in
  ∃ jsonFiles t,
    listing w (filepath.Join ["in"; "*.json"]) = ok jsonFiles ∧
    jsonFiles ≠ [] ∧
    trace w' = (trace w ++ EvGlob (filepath.Join ["in"; "*.json"]) :: t)%list ∧
    opened t = jsonFiles ∧
    length (requested t) = length jsonFiles ∧
    created t = pdfPath_of "out" <$> jsonFiles ∧
    dom (files w') = dom (files w) ∪ list_to_set (pdfPath_of "out" <$> jsonFiles).
Proof.
  intros w w'.
  apply (X21_earlier_revision_one_report_per_input w w').
  vm_compute. reflexivity.
Defined.

Lemma X22_witness :
  let w := Sample.world in
  ∃ w',
    TextPrompt.process_file (H := Sample.libs_unprintable)
      (client_of w) "out" "in/patients.json" w
    = (Exited (FatalFormatJSON (errorString "unsupported value")), w') ∧
    requested (trace w') = [].
Proof.
  intros w.
  destruct (X22_unformattable_document_is_fatal (H := Sample.libs_unprintable)
              (client_of w) "out" "in/patients.json" w "{ patients }"
              ("{ patients }" : string) (errorString "unsupported value"))
    as (w' & Hrun & Htr & _); [reflexivity | reflexivity | reflexivity |].
  exists w'. split; [exact Hrun | by rewrite Htr].
Defined.

End FurtherWitnesses.
